(** * psql.py: the settings store, the dispatcher, the completion
      supervisor and the process worker of the PostgreSQL editor plugin,
      embedded as state-passing Rocq functions.

    Python dictionaries are finite maps ([gmap]); methods that read or
    mutate [self] are computations in a state-and-exception monad whose
    state survives a raised exception, as the object does in Python.
    Exceptions carry the messages of Python 3.3, the interpreter of the
    editor the plugin is written for. *)

From stdpp Require Import gmap strings list fin_maps pretty.
From Stdlib Require Import ZArith Ascii.

Local Open Scope string_scope.
Local Open Scope list_scope.

(** ** Python values *)

(** The JSON-like values that a setting can hold. *)
#[warnings="-register-all"]
Inductive value : Type :=
| VNone
| VBool (b : bool)
| VInt (z : Z)
| VStr (s : string)
| VList (l : list value).

(** Python truth testing: [None], [False], [0], [''] and [[]] are falsy. *)
Definition truthy (v : value) : bool :=
  match v with
  | VNone => false
  | VBool b => b
  | VInt z => negb (z =? 0)%Z
  | VStr s => negb (String.eqb s "")
  | VList l => match l with [] => false | _ :: _ => true end
  end.

(** The exceptions that the modelled code can raise or has to catch. *)
Inductive exn : Type :=
| ValueError (msg : string)
| KeyError (key : string)
| TypeError (msg : string)
| AttributeError (msg : string)
| OSError (msg : string)
| LookupError (msg : string)
| UnicodeError (msg : string).

(** ** State and exceptions *)

Module Py.

Inductive result (A : Type) : Type :=
| Ok (a : A)
| Raise (e : exn).
Arguments Ok {A} a.
Arguments Raise {A} e.

(** A computation over a state [S]: the outcome and the state it leaves. *)
Definition M (S A : Type) : Type := S -> result A * S.

Definition ret {S A : Type} (a : A) : M S A := fun s => (Ok a, s).

Definition bind {S A B : Type} (m : M S A) (k : A -> M S B) : M S B :=
  fun s =>
    match m s with
    | (Ok a, s') => k a s'
    | (Raise e, s') => (Raise e, s')
    end.

Definition raise {S A : Type} (e : exn) : M S A := fun s => (Raise e, s).

Definition gets {S A : Type} (f : S -> A) : M S A := fun s => (Ok (f s), s).

Definition modify {S : Type} (f : S -> S) : M S unit := fun s => (Ok tt, f s).

(** [try: m except BaseException as e: h e] *)
Definition try_except {S A : Type} (m : M S A) (h : exn -> M S A) : M S A :=
  fun s =>
    match m s with
    | (Ok a, s') => (Ok a, s')
    | (Raise e, s') => h e s'
    end.

(** [for x in l: body x] *)
Fixpoint for_each {S A : Type} (l : list A) (body : A -> M S unit) : M S unit :=
  match l with
  | [] => ret tt
  | x :: rest => bind (body x) (fun _ => for_each rest body)
  end.

End Py.
Import Py.

Notation "'let*' x ':=' c1 'in' c2" := (bind c1 (fun x => c2))
  (at level 10, x pattern, c1 at level 100, c2 at level 200, only parsing).
Notation "c1 '>>' c2" := (bind c1 (fun _ => c2))
  (at level 100, c2 at level 200, right associativity, only parsing).

(** ** PsqlSettings *)

(** [PsqlSettings.__postgres_variables], in the order of the literal. *)
Definition postgres_variables : list (string * string) :=
  [ ("host", "PGHOST"); ("hostaddr", "PGHOSTADDR"); ("port", "PGPORT");
    ("database", "PGDATABASE"); ("user", "PGUSER"); ("password", "PGPASSWORD");
    ("passfile", "PGPASSFILE"); ("service", "PGSERVICE");
    ("servicefile", "PGSERVICEFILE");
    ("kerberos_realm", "PGREALM"); ("options", "PGOPTIONS");
    ("application_name", "PGAPPNAME");
    ("sslmode", "PGSSLMODE"); ("requiressl", "PGREQUIRESSL");
    ("sslcompression", "PGSSLCOMPRESSION");
    ("sslcert", "PGSSLCERT"); ("sslkey", "PGSSLKEY");
    ("sslrootcert", "PGSSLROOTCERT");
    ("sslcrl", "PGSSLCRL"); ("requirepeer", "PGREQUIREPEER");
    ("krbsrvname", "PGKRBSRVNAME");
    ("gsslib", "PGGSSLIB"); ("connect_timeout", "PGCONNECT_TIMEOUT");
    ("client_encoding", "PGCLIENTENCODING"); ("datestyle", "PGDATESTYLE");
    ("timezone", "PGTZ"); ("geqo", "PGGEQO"); ("sysconfdir", "PGSYSCONFDIR");
    ("localedir", "PGLOCALEDIR"); ("psql_path", ""); ("prompt_for_password", "");
    ("warn_on_empty_password", ""); ("output_to_newfile", ""); ("files", "") ].

(** [postgres_variables[name]] *)
Fixpoint variable_lookup (table : list (string * string)) (name : string)
  : option string :=
  match table with
  | [] => None
  | (n, arg) :: rest => if String.eqb n name then Some arg else variable_lookup rest name
  end.

(** One settings object: the working layer [__defaults] and the session
    overrides [__userspecified]. *)
Record PsqlSettings : Type := mkPsqlSettings
  { defaults : gmap string value;
    userspecified : gmap string value }.

(** The object together with the class-level settings backend that
    [__get_settings()] hands out (loaded from the settings file). *)
Record state : Type := mkState
  { self : PsqlSettings;
    settings : gmap string value }.

Definition with_defaults (f : gmap string value -> gmap string value) (st : state)
  : state :=
  mkState (mkPsqlSettings (f (defaults (self st))) (userspecified (self st)))
          (settings st).

Definition with_userspecified (f : gmap string value -> gmap string value)
  (st : state) : state :=
  mkState (mkPsqlSettings (defaults (self st)) (f (userspecified (self st))))
          (settings st).

Definition with_settings (f : gmap string value -> gmap string value) (st : state)
  : state :=
  mkState (self st) (f (settings st)).

(** [settings.get(key)]: the stored value, [None] when the key is missing. *)
Definition settings_get (key : string) : M state value :=
  gets (fun st => default VNone (settings st !! key)).

(** [settings.set(key, value)] *)
Definition settings_set (key : string) (v : value) : M state unit :=
  modify (with_settings (insert key v)).

Definition try_validate_name (name : string) : bool :=
  bool_decide (is_Some (variable_lookup postgres_variables name)).

Definition validate_name (name : string) : M state unit :=
  if try_validate_name name then ret tt
  else raise (ValueError ("Argument " +:+ name +:+ " not recognized.")).

Definition keytransform (name : string) : string := name.

(** [__get] *)
Definition get (name : string) : M state value :=
  let* d := gets (fun st => defaults (self st)) in
  (match d !! keytransform name with
   | Some _ => ret tt
   | None =>
       let* value := settings_get ("default_" +:+ name) in
       if truthy value then modify (with_defaults (insert (keytransform name) value))
       else ret tt
   end) >>
  let* d' := gets (fun st => defaults (self st)) in
  match d' !! keytransform name with
  | Some v => ret v
  | None => raise (KeyError (keytransform name))
  end.

(** [__getitem__] *)
Definition getitem (name : string) : M state value :=
  validate_name name >> get (keytransform name).

(** [__setitem__] *)
Definition setitem (name : string) (v : value) : M state unit :=
  validate_name name >> modify (with_defaults (insert (keytransform name) v)).

(** [__delitem__] *)
Definition delitem (name : string) : M state unit :=
  validate_name name >>
  let* d := gets (fun st => defaults (self st)) in
  match d !! keytransform name with
  | Some _ => modify (with_defaults (delete (keytransform name)))
  | None => raise (KeyError (keytransform name))
  end.

(** [__contains__] *)
Definition contains (name : string) : M state bool :=
  validate_name name >>
  let* d := gets (fun st => defaults (self st)) in
  match d !! keytransform name with
  | Some _ => ret true
  | None =>
      let* value := settings_get ("default_" +:+ name) in
      if truthy value then ret true else ret false
  end.

(** [__reload]: the working layer becomes a copy of the overrides. *)
Definition reload : M state unit :=
  modify (fun st => with_defaults (fun _ => userspecified (self st)) st).

(** [clear] *)
Definition clear : M state unit :=
  modify (with_userspecified (fun _ => ∅)) >> reload.

(** The loop of [save]: one [settings.set] per override, [updates] raised
    by every turn. *)
Fixpoint save_loop (items : list (string * value)) (updates : bool) : M state bool :=
  match items with
  | [] => ret updates
  | (name, v) :: rest =>
      settings_set ("default_" +:+ name) v >> save_loop rest true
  end.

(** [save]; [save_settings] flushes the backend to its file and leaves
    the settings object as it is. *)
Definition save : M state unit :=
  let* us := gets (fun st => userspecified (self st)) in
  let* updates := save_loop (map_to_list us) false in
  if updates then clear else ret tt.

Definition has_user_specified : M state bool :=
  gets (fun st => bool_decide (0 < size (userspecified (self st)))).

Definition set_user_specified (name : string) (v : value) : M state unit :=
  validate_name name >> modify (with_userspecified (insert name v)).

Definition unset_user_specified (name : string) : M state unit :=
  validate_name name >>
  let* us := gets (fun st => userspecified (self st)) in
  match us !! name with
  | Some _ => modify (with_userspecified (delete name))
  | None => ret tt
  end.

(** [MutableMapping.update] on the keyword dictionary: one [__setitem__]
    per entry. *)
Definition update (kwargs : list (string * value)) : M state unit :=
  for_each kwargs (fun kv => setitem kv.1 kv.2).

(** [__init__]; [kwargs] are the keywords left once [window] is popped. *)
Definition init (kwargs : list (string * value)) : M state unit :=
  modify (with_defaults (fun _ => ∅)) >>
  modify (with_userspecified (fun _ => ∅)) >>
  reload >>
  update kwargs.

(** ** The window registry *)

(** The class attributes of [PsqlSettings]: [__windows] maps a window id to
    a reference, [objects] holds the instances the references stand for,
    and [class_settings] is the settings backend shared by all of them. *)
Record class_state : Type := mkClass
  { windows : gmap Z nat;
    objects : gmap nat PsqlSettings;
    class_settings : gmap string value }.

Definition object_at (cs : class_state) (l : nat) : PsqlSettings :=
  default (mkPsqlSettings ∅ ∅) (objects cs !! l).

(** What [object.__new__] answers to arguments when the class has a
    [__new__] of its own. *)
Definition object_new_error : exn := TypeError "object() takes no parameters".

(** [MutableMapping.__new__(cls, **kwargs)], which is [object.__new__]:
    without keywords a fresh object, distinct from all others; with
    keywords a [TypeError] and no object. *)
Definition allocate (kwargs : list (string * value)) : M class_state nat :=
  match kwargs with
  | [] =>
      fun cs =>
        let l := fresh (dom (objects cs)) in
        (Ok l, mkClass (windows cs) (<[l := mkPsqlSettings ∅ ∅]> (objects cs))
                       (class_settings cs))
  | _ :: _ => raise object_new_error
  end.

(** [__new__]; [kwargs] are the keywords other than [window]. *)
Definition new (window : option Z) (kwargs : list (string * value))
  : M class_state nat :=
  match window with
  | Some w =>
      let* ws := gets windows in
      (match ws !! w with
       | Some _ => ret tt
       | None =>
           let* l := allocate kwargs in
           modify (fun cs => mkClass (<[w := l]> (windows cs)) (objects cs)
                                     (class_settings cs))
       end) >>
      let* ws' := gets windows in
      match ws' !! w with
      | Some l => ret l
      | None => raise (KeyError "window")
      end
  | None => allocate kwargs
  end.

(** A method of the instance behind reference [l], run against the class. *)
Definition on_object {A : Type} (l : nat) (m : M state A) : M class_state A :=
  fun cs =>
    let '(r, st') := m (mkState (object_at cs l) (class_settings cs)) in
    (r, mkClass (windows cs) (<[l := self st']> (objects cs)) (settings st')).

(** [PsqlSettings(window=..., **kwargs)]: [__new__], then [__init__] on
    whatever object [__new__] returned; when [__new__] raises, [__init__]
    is not run. *)
Definition construct (window : option Z) (kwargs : list (string * value))
  : M class_state nat :=
  let* l := new window kwargs in
  on_object l (init kwargs) >> ret l.

(** [window_closed] *)
Definition window_closed (w : Z) : M class_state unit :=
  modify (fun cs => mkClass (delete w (windows cs)) (objects cs) (class_settings cs)).

(** [__reload_all_windows], the callback for a change of the backend. *)
Definition reload_all_windows : M class_state unit :=
  let* ws := gets windows in
  for_each (map_to_list ws) (fun wl => on_object wl.2 reload).

(** ** PsqlCommand: the dispatcher *)

(** A [__PostgresQueryExecute] thread: the arguments it was built with. *)
Record PostgresQueryExecute : Type := mkExecute
  { query : option string;
    file : option string }.

(** The view the command runs on: its text and its selected regions, in
    document order. *)
Record view : Type := mkView
  { content : string;
    sel : list (nat * nat) }.

(** [Region.empty()] *)
Definition region_empty (r : nat * nat) : bool := Nat.eqb r.1 r.2.

(** [view.substr(region)] *)
Definition substr (v : view) (r : nat * nat) : string :=
  String.substring (r.1 `min` r.2) (r.1 `max` r.2 - r.1 `min` r.2) (content v).

(** [view.size()] *)
Definition view_size (v : view) : nat := String.length (content v).

(** What [run] and [__run_with_password] leave behind. *)
Inductive dispatch (info : Type) : Type :=
| AwaitPassword
| Cancelled
| Executing (output_panel : bool) (thread_infos : list info) (thread_total : Z).
Arguments AwaitPassword {info}.
Arguments Cancelled {info}.
Arguments Executing {info} output_panel thread_infos thread_total.

(** [self.set_status(msg)] on the command. [set_status] is a function of
    the module; [PsqlCommand] and the classes it derives from have no
    attribute of that name, so the call fails when the attribute is looked
    up, before the message is handed over. *)
Definition command_set_status (msg : string) : M state unit :=
  raise (AttributeError "'PsqlCommand' object has no attribute 'set_status'").

(** [self.settings = kwargs]. The setter written after the property
    [settings] is bound to the name [function]; the property [settings]
    keeps its getter only, and the assignment is refused. *)
Definition assign_settings (kwargs : list (string * value)) : M state unit :=
  raise (AttributeError "can't set attribute").

Section Dispatcher.

(** The clock's type and the collaborators outside the module:
    [os.path.isfile], [os.path.expanduser], [sublime.ok_cancel_dialog] and
    [time.time] (its [k]-th reading). *)
Variable float : Type.
Variable isfile : string -> bool.
Variable expanduser : string -> string.
Variable ok_cancel_dialog : string -> string -> bool.
Variable time : nat -> float.

(** One entry of [thread_infos]: a dictionary with the keys ['thread'], one
    of ['file'] and ['thread_num'], and later ['start_time']. *)
Record thread_info : Type := mkInfo
  { thread : PostgresQueryExecute;
    info_file : option string;
    thread_num : option Z;
    start_time : option float }.

(** [is_output_to_newfile] *)
Definition is_output_to_newfile : M state bool :=
  let* c := contains "output_to_newfile" in
  if c then let* v := getitem "output_to_newfile" in ret (truthy v)
  else ret false.

(** [__is_password_required], one conjunct after the other. *)
Definition is_password_required : M state bool :=
  let* c := contains "prompt_for_password" in
  if negb c then ret false else
  let* v := getitem "prompt_for_password" in
  if negb (truthy v) then ret false else
  let* p := contains "passfile" in
  if p then ret false else
  let* s := contains "service" in
  if s then ret false else
  ret (negb (isfile (expanduser "~/.pgpass"))).

(** Iterating a value: a list yields its items, a string its characters. *)
Fixpoint characters (s : string) : list value :=
  match s with
  | EmptyString => []
  | String c rest => VStr (String c EmptyString) :: characters rest
  end.

Definition iterate (v : value) : M state (list value) :=
  match v with
  | VList l => ret l
  | VStr s => ret (characters s)
  | _ => raise (TypeError "object is not iterable")
  end.

(** [isfile(fileobj)] for an item of the file list. Path strings are
    looked up. An item of another type is refused here; of those
    [os.path.isfile] takes an integer for a file descriptor, which the
    outside world of this section does not have. The loop over the items
    comes after the status message of line 258, see [run_with_password]. *)
Definition isfile_item (fileobj : value) : M state (option string) :=
  match fileobj with
  | VStr p => ret (if isfile p then Some p else None)
  | _ => raise (TypeError "path should be string")
  end.

(** The loop over [self.settings['files']]. *)
Fixpoint files_loop (files : list value) (thread_num : Z)
  (thread_infos : list thread_info) : M state (list thread_info * Z) :=
  match files with
  | [] => ret (thread_infos, thread_num)
  | fileobj :: rest =>
      let* found := isfile_item fileobj in
      match found with
      | Some p =>
          files_loop rest (thread_num + 1)%Z
            (thread_infos ++ [mkInfo (mkExecute None (Some p)) (Some p) None None])
      | None => files_loop rest thread_num thread_infos
      end
  end.

(** The loop over [self.view.sel()]; the flag is [noSelections]. *)
Fixpoint selections_loop (v : view) (regions : list (nat * nat)) (thread_num : Z)
  (noSelections : bool) (thread_infos : list thread_info)
  : list thread_info * Z * bool :=
  match regions with
  | [] => (thread_infos, thread_num, noSelections)
  | r :: rest =>
      if negb (region_empty r) then
        selections_loop v rest (thread_num + 1)%Z false
          (thread_infos ++
             [mkInfo (mkExecute (Some (substr v r)) None) None
                     (Some (thread_num + 1)%Z) None])
      else selections_loop v rest thread_num noSelections thread_infos
  end.

(** The partition of an invocation into threads (the two branches on
    ['files' in self.settings]). *)
Definition make_threads (v : view) : M state (list thread_info * Z) :=
  let* has_files := contains "files" in
  if has_files then
    let* files := getitem "files" in
    let* items := iterate files in
    files_loop items 0%Z []
  else
    let '(thread_infos, thread_num, noSelections) :=
      selections_loop v (sel v) 0%Z true [] in
    if noSelections then
      ret (thread_infos ++
             [mkInfo (mkExecute (Some (substr v (0, view_size v))) None) None
                     (Some (thread_num + 1)%Z) None],
           (thread_num + 1)%Z)
    else ret (thread_infos, thread_num).

(** The start loop: every entry gets its own reading of the clock. *)
Fixpoint start_threads (k : nat) (thread_infos : list thread_info)
  : list thread_info :=
  match thread_infos with
  | [] => []
  | ti :: rest =>
      mkInfo (thread ti) (info_file ti) (thread_num ti) (Some (time k))
      :: start_threads (S k) rest
  end.

(** [__run_with_password]. The output panel of lines 252-256 belongs to
    the editor and leaves no trace in the settings; [self.encoding], which
    line 256 hands to the panel, is taken as set. *)
Definition run_with_password (v : view) (password : value)
  : M state (dispatch thread_info) :=
  let* required :=
    (if truthy password then ret false else is_password_required) in
  let* proceed :=
    (if required then
       let* c := contains "warn_on_empty_password" in
       let* warn :=
         (if c then let* w := getitem "warn_on_empty_password" in ret (truthy w)
          else ret false) in
       if warn && negb (ok_cancel_dialog "Proceed with empty password?" "Proceed")
       then command_set_status "PostgreSQL query cancelled." >> ret false
       else ret true
     else
       let* c := contains "password" in
       (if c then ret tt else setitem "password" password) >> ret true) in
  if negb proceed then ret Cancelled else
  let* newfile := is_output_to_newfile in
  command_set_status "PostgreSQL query executing..." >>
  let* threads := make_threads v in
  ret (Executing (negb newfile) (start_threads 0 threads.1) threads.2).

(** Lines 226-233 of [run]: either the input panel is asked for, or
    [__run_with_password] is entered at once. *)
Definition password_check (v : view) : M state (dispatch thread_info) :=
  let* has_password := contains "password" in
  if has_password then
    let* password := getitem "password" in
    run_with_password v password
  else
    let* required := is_password_required in
    if required then
      command_set_status "Enter password for PostgreSQL database." >>
      ret AwaitPassword
    else run_with_password v VNone.

(** [run]: the assignment of line 221, then the password check. The keyword [window]
    that line 220 adds and the encoding of lines 222-224 play no part in
    either and are left out. *)
Definition run (v : view) (kwargs : list (string * value))
  : M state (dispatch thread_info) :=
  assign_settings kwargs >> password_check v.

End Dispatcher.

Arguments mkInfo {float} thread info_file thread_num start_time.
Arguments thread {float} t.
Arguments info_file {float} t.
Arguments thread_num {float} t.
Arguments start_time {float} t.

(** ** The completion supervisor: [__PostgresQueryHandleExecution] *)

(** The second component of [os.path.split]: what follows the last slash. *)
Fixpoint split_tail_from (tail : string) (p : string) : string :=
  match p with
  | EmptyString => tail
  | String c rest =>
      if Ascii.eqb c "/"%char then split_tail_from "" rest
      else split_tail_from (tail +:+ String c "") rest
  end.

Definition split_tail (p : string) : string := split_tail_from "" p.

(** What a tick of the supervisor ends in: another tick on the threads
    still alive, or nothing more. *)
Inductive supervisor (info : Type) : Type :=
| Polling (thread_infos : list info) (thread_total : Z)
| Done.
Arguments Polling {info} thread_infos thread_total.
Arguments Done {info}.

Section Supervisor.

(** Floating-point numbers with subtraction, multiplication, the conversion
    of an integer and [str]; [is_alive i] and [time i] are what the [i]-th
    entry's thread and the clock answer when the entry is examined. *)
Variable float : Type.
Variable fsub fmul : float -> float -> float.
Variable of_int : Z -> float.
Variable str : float -> string.
Variable is_alive : nat -> bool.
Variable time : nat -> float.

(** [set_status(msg)] of the module: the message is queued for the status
    bar. The state of a tick is the list of messages queued so far. *)
Definition set_status (msg : string) : M (list string) unit :=
  modify (fun queued => queued ++ [msg]).

(** [self.set_status(msg)] on the supervisor, a [Thread] without an
    attribute of that name: the call fails when the attribute is looked
    up, and the function of the module is not reached. *)
Definition supervisor_set_status (msg : string) : M (list string) unit :=
  raise (AttributeError
           "'__PostgresQueryHandleExecution' object has no attribute 'set_status'").

(** The label of a finished entry. The condition is evaluated first; when
    it holds, ['query ' + thread_num] adds an [int] to a [str]. *)
Definition query_id (thread_total : Z) (ti : thread_info float)
  : M (list string) string :=
  match info_file ti with
  | Some f => ret ("file " +:+ split_tail f)
  | None =>
      match thread_num ti with
      | None => raise (KeyError "thread_num")
      | Some n =>
          if negb (n =? 1)%Z && negb (thread_total =? 1)%Z
          then raise (TypeError "Can't convert 'int' object to str implicitly")
          else ret "query "
      end
  end.

(** The loop of [run] over [self.thread_infos], from entry [i] on. *)
Fixpoint poll (thread_total : Z) (i : nat) (thread_infos : list (thread_info float))
  (new_thread_infos : list (thread_info float))
  : M (list string) (list (thread_info float)) :=
  match thread_infos with
  | [] => ret new_thread_infos
  | ti :: rest =>
      if is_alive i then poll thread_total (S i) rest (new_thread_infos ++ [ti])
      else
        let* started :=
          (match start_time ti with
           | Some t => ret t
           | None => raise (KeyError "start_time")
           end) in
        let completion_time := fmul (fsub (time i) started) (of_int 1000) in
        let* label := query_id thread_total ti in
        supervisor_set_status ("PostgreSQL " +:+ label +:+ " completed in "
                               +:+ str completion_time +:+ " ms.") >>
        poll thread_total (S i) rest new_thread_infos
  end.

(** [run]: one tick. *)
Definition supervisor_run (thread_infos : list (thread_info float)) (thread_total : Z)
  : M (list string) (supervisor (thread_info float)) :=
  let* new_thread_infos := poll thread_total 0 thread_infos [] in
  if (0 <? length new_thread_infos)%nat then ret (Polling new_thread_infos thread_total)
  else ret Done.

End Supervisor.

(** ** The process worker: [__PostgresQueryExecute] *)

(** The standard input handed to [Popen]: an open file, or a pipe that
    [communicate] feeds later. *)
Inductive stdin : Type :=
| FromFile (inputfile : string)
| PIPE.

(** What [run] hands to [set_timeout]: the arguments of [__output]. *)
Record delivery : Type := mkDelivery
  { retcode : Z;
    output_text : string }.

(** What the access of [postgres_variables] raises. *)
Definition accessor_error : exn := TypeError "'staticmethod' object is not callable".

(** [self.parent.settings.postgres_variables]. The accessor is a property
    whose getter is a [staticmethod] object; reading the property calls
    the getter, and a [staticmethod] object cannot be called by the
    interpreters that load the module (it imports [MutableMapping] from
    [collections]). The body, which names the table without its class,
    is not reached. *)
Definition postgres_variables_accessor : M state (list (string * string)) :=
  raise accessor_error.

Section Worker.

(** The world outside the module: [os.environ], [open], [Popen],
    [communicate] (its standard output) and [poll] of the process,
    [bytes(text, encoding)], [bytes.decode] and [traceback.format_exc];
    [encoding] is [self.parent.encoding]. *)
Variable process : Type.
Variable environ : gmap string value.
Variable open_ : string -> result string.
Variable popen : list value -> stdin -> gmap string value -> result process.
Variable communicate : process -> option (list Byte.byte) -> result (list Byte.byte).
Variable poll_process : process -> Z.
Variable encode : string -> string -> result (list Byte.byte).
Variable decode : list Byte.byte -> string -> result string.
Variable format_exc : exn -> string.
Variable encoding : string.

Definition lift {A : Type} (r : result A) : M state A := fun st => (r, st).

(** [__get_parameter] *)
Definition get_parameter (name : string) (default : value) : M state value :=
  let* c := contains name in
  (if negb c && truthy default then setitem name default else ret tt) >>
  if truthy default then getitem name
  else
    let* c' := contains name in
    if c' then getitem name else ret (VBool false).

(** [__try_add_parameter_name_to_environment], with [default=False]; the
    dictionary [env] is returned as updated. *)
Definition try_add_parameter_name_to_environment (env : gmap string value)
  (name argname : string) : M state (gmap string value * bool) :=
  let* v := get_parameter name (VBool false) in
  if truthy v then ret (<[argname := v]> env, true)
  else ret (env, false).

(** The loop of lines 363-365 over the names of a table; every turn that
    finds its name set reads the accessor again for the external name. *)
Fixpoint environment_loop (names : list string) (environment : gmap string value)
  : M state (gmap string value) :=
  match names with
  | [] => ret environment
  | name :: rest =>
      let* c := contains name in
      let* set := (if c then let* v := getitem name in ret (truthy v) else ret false) in
      if set then
        let* table := postgres_variables_accessor in
        let* argname :=
          (match variable_lookup table name with
           | Some a => ret a
           | None => raise (KeyError name)
           end) in
        let* added := try_add_parameter_name_to_environment environment name argname in
        environment_loop rest added.1
      else environment_loop rest environment
  end.

(** The environment of the child process, lines 361-369: a copy of
    [os.environ], the loop over the names that the accessor gives, and the
    client encoding. *)
Definition make_environment : M state (gmap string value) :=
  let* table := postgres_variables_accessor in
  let* environment := environment_loop (table.*1) environ in
  let* table' := postgres_variables_accessor in
  let* client_encoding_name :=
    (match variable_lookup table' "client_encoding" with
     | Some a => ret a
     | None => raise (KeyError "client_encoding")
     end) in
  match environment !! client_encoding_name with
  | Some _ => ret environment
  | None => ret (<[client_encoding_name := VStr encoding]> environment)
  end.

(** [bytes(self.query, self.parent.encoding)] *)
Definition query_bytes (t : PostgresQueryExecute) : M state (list Byte.byte) :=
  match query t with
  | Some q => lift (encode q encoding)
  | None => raise (TypeError "encoding without a string argument")
  end.

(** The [else] branch of [if (self.file)]: the process is started first,
    the query is encoded next and then written to the pipe. *)
Definition run_query (t : PostgresQueryExecute) (cmd : list value)
  (environment : gmap string value) : M state (process * list Byte.byte) :=
  let* psqlprocess := lift (popen cmd PIPE environment) in
  let* data := query_bytes t in
  let* stdout := lift (communicate psqlprocess (Some data)) in
  ret (psqlprocess, stdout).

(** The body of the [try] block of [run]. *)
Definition run_body (t : PostgresQueryExecute) : M state delivery :=
  let* psql_path := get_parameter "psql_path" (VStr "/usr/bin/psql") in
  let cmd := [psql_path; VStr "--no-password"] in
  let* environment := make_environment in
  let* finished :=
    (match file t with
     | Some f =>
         if negb (String.eqb f "") then
           let* inputfile := lift (open_ f) in
           let* psqlprocess := lift (popen cmd (FromFile inputfile) environment) in
           let* stdout := lift (communicate psqlprocess None) in
           ret (psqlprocess, stdout)
         else run_query t cmd environment
     | None => run_query t cmd environment
     end) in
  let* output_text := lift (decode finished.2 encoding) in
  ret (mkDelivery (poll_process finished.1) output_text).

(** [run]: whatever the body raises is turned into a traceback with code 1,
    and the result goes to [set_timeout] either way. *)
Definition worker_run (t : PostgresQueryExecute) : M state delivery :=
  try_except (run_body t) (fun e => ret (mkDelivery 1 (format_exc e))).

End Worker.

(** ** Concrete stores used in examples *)

Definition st0 : state := mkState (mkPsqlSettings ∅ ∅) ∅.

(** A store whose backend carries a default for [host]. *)
Definition st_default_host : state :=
  mkState (mkPsqlSettings ∅ ∅) {[ "default_host" := VStr "persisted" ]}.

(** A store whose backend carries a falsy default for [port]. *)
Definition st_falsy_port : state :=
  mkState (mkPsqlSettings ∅ ∅) {[ "default_port" := VInt 0 ]}.

(** A store with one falsy session override. *)
Definition st_override_falsy : state :=
  mkState (mkPsqlSettings ∅ {[ "requiressl" := VInt 0 ]}) ∅.

(** A store with a truthy session override and an explicit value. *)
Definition st_override_host : state :=
  mkState (mkPsqlSettings {[ "port" := VInt 5433 ]} {[ "host" := VStr "db" ]}) ∅.

(** The backend after the loop of [save] over [items]. *)
Definition saved (items : list (string * value)) (backend : gmap string value)
  : gmap string value :=
  foldl (fun b kv => <["default_" +:+ kv.1 := kv.2]> b) backend items.

(** The working layer after [update] with [kwargs]. *)
Definition updated (kwargs : list (string * value)) (working : gmap string value)
  : gmap string value :=
  foldl (fun d kv => <[kv.1 := kv.2]> d) working kwargs.

(** A class with one window, whose settings object holds an explicit
    value, an override and a backfilled default. *)
Definition cs_one_window : class_state :=
  mkClass {[ 7%Z := 0 ]}
          {[ 0 := mkPsqlSettings {[ "host" := VStr "db"; "port" := VInt 5432 ]}
                                 {[ "user" := VStr "alice" ]} ]}
          {[ "default_port" := VInt 5432 ]}.

(** ** Reading the store *)

(** What a read of [name] resolves to: the working layer first, then the
    persisted default when it is truthy. *)
Definition resolve (st : state) (name : string) : option value :=
  match defaults (self st) !! name with
  | Some v => Some v
  | None =>
      let persisted := default VNone (settings st !! ("default_" +:+ name)) in
      if truthy persisted then Some persisted else None
  end.

(** Two states that no read can tell apart and that hold the same
    overrides and backend. *)
Definition same_reads (st st' : state) : Prop :=
  settings st' = settings st /\
  userspecified (self st') = userspecified (self st) /\
  forall name, resolve st' name = resolve st name.

(** The error of [__validate_name]. *)
Definition not_recognized (name : string) : exn :=
  ValueError ("Argument " +:+ name +:+ " not recognized.").


(** [name] is present in the resolved settings ([name in self.settings]). *)
Definition present (st : state) (name : string) : bool :=
  bool_decide (is_Some (resolve st name)).

(** The flag [name] is set and truthy. *)
Definition flag_set (st : state) (name : string) : bool :=
  match resolve st name with
  | Some v => truthy v
  | None => false
  end.

(** A view with two statements, the first of them selected, and a store
    that carries a file list. *)
Definition view_one_selection : view :=
  mkView "select 1; select 2;" [(0, 9); (12, 12)].

Definition st_two_files : state :=
  mkState (mkPsqlSettings {[ "files" := VList [VStr "a.sql"; VStr "b.sql"] ]} ∅) ∅.

(** ** Outside worlds and inputs for the supervisor and the worker *)

(** Floats that hold whole numbers, printed as Python prints them. *)
Definition whole_str (z : Z) : string := pretty z +:+ ".0".

(** Two file entries started at second 5. *)
Definition two_files_started : list (thread_info Z) :=
  [ mkInfo (mkExecute None (Some "/tmp/a.sql")) (Some "/tmp/a.sql") None (Some 5%Z);
    mkInfo (mkExecute None (Some "b.sql")) (Some "b.sql") None (Some 5%Z) ].

(** Two query entries started at second 5. *)
Definition two_queries_started : list (thread_info Z) :=
  [ mkInfo (mkExecute (Some "select 1;") None) None (Some 1%Z) (Some 5%Z);
    mkInfo (mkExecute (Some "select 2;") None) None (Some 2%Z) (Some 5%Z) ].

(** A process environment that already names a client encoding. *)
Definition environ_latin1 : gmap string value :=
  {[ "PGCLIENTENCODING" := VStr "LATIN1"; "HOME" := VStr "/home/user" ]}.

(** A store with a host, a port and a falsy SSL mode. *)
Definition st_connection : state :=
  mkState (mkPsqlSettings {[ "host" := VStr "db"; "sslmode" := VStr "" ]} ∅)
          {[ "default_port" := VStr "5433" ]}.

(** An outside world in which no process can be started. *)
Definition no_psql (cmd : list value) (i : stdin) (env : gmap string value)
  : result stdin :=
  Raise (OSError "No such file or directory: '/usr/bin/psql'").

(** An outside world in which the process answers with what it is fed and
    exits with status 0; the process is known by its standard input. *)
Definition echo_psql (cmd : list value) (i : stdin) (env : gmap string value)
  : result stdin :=
  Ok i.

Definition echo_communicate (p : stdin) (data : option (list Byte.byte))
  : result (list Byte.byte) :=
  match p, data with
  | FromFile inputfile, _ => Ok (String.list_byte_of_string inputfile)
  | PIPE, Some bytes => Ok bytes
  | PIPE, None => Ok []
  end.

Definition exit_status_0 (p : stdin) : Z := 0.

Definition utf8_encode (text encoding : string) : result (list Byte.byte) :=
  if String.eqb encoding "UTF-8" then Ok (String.list_byte_of_string text)
  else Raise (LookupError ("unknown encoding: " +:+ encoding)).

Definition utf8_decode (data : list Byte.byte) (encoding : string) : result string :=
  if String.eqb encoding "UTF-8" then Ok (String.string_of_list_byte data)
  else Raise (LookupError ("unknown encoding: " +:+ encoding)).

Definition no_file (path : string) : result string :=
  Raise (OSError ("No such file or directory: " +:+ path)).

Definition traceback (e : exn) : string :=
  match e with
  | ValueError m => "Traceback (most recent call last): ValueError: " +:+ m
  | KeyError m => "Traceback (most recent call last): KeyError: " +:+ m
  | TypeError m => "Traceback (most recent call last): TypeError: " +:+ m
  | AttributeError m => "Traceback (most recent call last): AttributeError: " +:+ m
  | OSError m => "Traceback (most recent call last): OSError: " +:+ m
  | LookupError m => "Traceback (most recent call last): LookupError: " +:+ m
  | UnicodeError m => "Traceback (most recent call last): UnicodeError: " +:+ m
  end.

(** Stores for the password gate: the prompt flag alone, and the prompt
    flag together with a passfile. *)
Definition st_prompt : state :=
  mkState (mkPsqlSettings {[ "prompt_for_password" := VBool true ]} ∅) ∅.

Definition st_prompt_passfile : state :=
  mkState (mkPsqlSettings {[ "prompt_for_password" := VBool true;
                             "passfile" := VStr "/x" ]} ∅) ∅.

(** A class with one window whose settings object has an override that
    has not reached its working layer. *)
Definition cs_pending_override : class_state :=
  mkClass {[ 7%Z := 0 ]}
          {[ 0 := mkPsqlSettings ∅ {[ "host" := VStr "session" ]} ]}
          ∅.

(** ** The rest of the mapping interface *)

(** [__len__]: the number of names in the working layer. *)
Definition len : M state nat :=
  gets (fun st => size (defaults (self st))).

(** The value a name gets from the backend alone: the persisted default
    when it is truthy. *)
Definition persisted_default (st : state) (name : string) : option value :=
  let persisted := default VNone (settings st !! ("default_" +:+ name)) in
  if truthy persisted then Some persisted else None.

(** A store with an explicit value for [host] and a persisted, truthy
    default for [port]. *)
Definition st_host_and_default_port : state :=
  mkState (mkPsqlSettings {[ "host" := VStr "db" ]} ∅)
          {[ "default_port" := VStr "5433" ]}.

(** A store with an override for [host] that hides nothing yet, an
    explicit value for [port] and a persisted default for [user]. *)
Definition st_three_layers : state :=
  mkState (mkPsqlSettings {[ "port" := VInt 5433 ]} {[ "host" := VStr "session" ]})
          {[ "default_user" := VStr "alice"; "default_host" := VStr "persisted" ]}.

(** ** The registry and the commands *)

(** The registry is in order: every registered reference stands for an
    object, and no two windows share a reference. *)
Definition registry_ok (cs : class_state) : Prop :=
  (forall w l, windows cs !! w = Some l -> is_Some (objects cs !! l)) /\
  (forall w1 w2 l,
     windows cs !! w1 = Some l -> windows cs !! w2 = Some l -> w1 = w2).

(** A settings object after [__reload]. *)
Definition reloaded (o : PsqlSettings) : PsqlSettings :=
  mkPsqlSettings (userspecified o) (userspecified o).

(** A window command: its window and the attribute [__settings] that
    caches the settings object. *)
Record PsqlBaseWindowCommand : Type := mkCommand
  { command_window : Z;
    command_settings : option nat }.

(** The property [settings] of a command: the cached reference, or a
    construction for the window of the command on first use. The command
    is returned as the access leaves it. *)
Definition settings_property (c : PsqlBaseWindowCommand)
  : M class_state (nat * PsqlBaseWindowCommand) :=
  match command_settings c with
  | Some l => ret (l, c)
  | None =>
      let* l := construct (Some (command_window c)) [] in
      ret (l, mkCommand (command_window c) (Some l))
  end.

(** A class with two windows; the second object has an override for
    [port] and an explicit value for [database]. *)
Definition cs_two_windows : class_state :=
  mkClass {[ 7%Z := 0; 8%Z := 1 ]}
          {[ 0 := mkPsqlSettings {[ "host" := VStr "db" ]} ∅;
             1 := mkPsqlSettings {[ "database" := VStr "sales" ]}
                                 {[ "port" := VInt 5433 ]};
             2 := mkPsqlSettings {[ "user" := VStr "alice" ]} ∅ ]}
          ∅.

(** ** The dispatcher, continued *)

(** The value of [__is_password_required], read off the store. *)
Definition password_required (isfile : string -> bool) (expanduser : string -> string)
  (st : state) : bool :=
  flag_set st "prompt_for_password" && negb (present st "passfile")
  && negb (present st "service") && negb (isfile (expanduser "~/.pgpass")).

(** The store after [self.settings['password'] = password], which is
    skipped when a password is present. *)
Definition password_stored (password : value) (st : state) : state :=
  if present st "password" then st
  else with_defaults (insert "password" password) st.

(** A store that asks for a password and warns about an empty one. *)
Definition st_prompt_and_warn : state :=
  mkState (mkPsqlSettings {[ "prompt_for_password" := VBool true;
                             "warn_on_empty_password" := VBool true ]} ∅) ∅.

(** ** The chain of ticks *)

(** What the threads and the clock answer during one tick: [is_alive] of
    the thread of the entry at a position, and the time read for it. *)
Record tick (float : Type) : Type := mkTick
  { tick_is_alive : nat -> bool;
    tick_time : nat -> float }.
Arguments mkTick {float} tick_is_alive tick_time.
Arguments tick_is_alive {float} t.
Arguments tick_time {float} t.

(** [execute]: a supervisor is started on the entries; its [run] polls
    them and calls [execute] for those still alive. The chain is followed
    through the ticks listed; [Polling] at the end stands for the
    supervisor that has been started and has not run yet. *)
Fixpoint execute {float : Type} (fsub fmul : float -> float -> float)
  (of_int : Z -> float) (str : float -> string) (ticks : list (tick float))
  (thread_infos : list (thread_info float)) (thread_total : Z)
  : M (list string) (supervisor (thread_info float)) :=
  match ticks with
  | [] => ret (Polling thread_infos thread_total)
  | t :: later =>
      let* next :=
        supervisor_run float fsub fmul of_int str (tick_is_alive t) (tick_time t)
          thread_infos thread_total in
      match next with
      | Polling new_thread_infos total =>
          execute fsub fmul of_int str later new_thread_infos total
      | Done => ret Done
      end
  end.

(** The errors a tick can die of: the status message that cannot be sent,
    the ordinal added to a string, or a key that an entry lacks. *)
Definition tick_error (e : exn) : Prop :=
  e = AttributeError
        "'__PostgresQueryHandleExecution' object has no attribute 'set_status'" \/
  e = TypeError "Can't convert 'int' object to str implicitly" \/
  exists key, e = KeyError key.

(** Two ticks: the second thread finishes first, the first one later. *)
Definition second_then_first : list (tick Z) :=
  [ mkTick (fun i => Nat.eqb i 0) (fun _ => 7%Z);
    mkTick (fun _ => false) (fun _ => 9%Z) ].

(** Two ticks during which every thread is alive. *)
Definition nothing_finishes : list (tick Z) :=
  [ mkTick (fun _ => true) (fun _ => 7%Z);
    mkTick (fun _ => true) (fun _ => 9%Z) ].

(** ** The worker, continued *)

(** The store after [__get_parameter]: the default is written into the
    working layer when the name reads as absent and the default is
    truthy. *)
Definition parameter_stored (name : string) (dflt : value) (st : state) : state :=
  if negb (present st name) && truthy dflt
  then with_defaults (insert name dflt) st
  else st.

(** The path of the client when the settings name none. *)
Definition usr_bin_psql : value := VStr "/usr/bin/psql".

(** ** Facts about the store *)

Ltac unfold_monad :=
  unfold bind, ret, gets, modify, raise, try_except; simpl.

Lemma same_reads_refl (st : state) : same_reads st st.
Proof. repeat split. Qed.

Lemma same_reads_trans (st1 st2 st3 : state) :
  same_reads st1 st2 -> same_reads st2 st3 -> same_reads st1 st3.
Proof.
  intros (Hs & Hu & Hr) (Hs' & Hu' & Hr').
  split; [congruence | split; [congruence |]].
  intros name. rewrite Hr'. apply Hr.
Qed.

Lemma validate_name_ok (name : string) (st : state) :
  try_validate_name name = true -> validate_name name st = (Ok tt, st).
Proof. intros H. unfold validate_name. rewrite H. reflexivity. Qed.

Lemma validate_name_fails (name : string) (st : state) :
  try_validate_name name = false ->
  validate_name name st = (Raise (not_recognized name), st).
Proof. intros H. unfold validate_name. rewrite H. reflexivity. Qed.

Lemma contains_resolve (name : string) (st : state) :
  try_validate_name name = true ->
  contains name st = (Ok (bool_decide (is_Some (resolve st name))), st).
Proof.
  intros H. unfold contains, bind. rewrite (validate_name_ok _ _ H).
  unfold resolve, settings_get, keytransform. unfold_monad.
  destruct (defaults (self st) !! name) as [v|]; simpl; [reflexivity|].
  destruct (truthy _); reflexivity.
Qed.

Lemma getitem_resolve_some (name : string) (v : value) (st : state) :
  try_validate_name name = true ->
  resolve st name = Some v ->
  exists st', getitem name st = (Ok v, st') /\ same_reads st st'.
Proof.
  intros H Hr. unfold getitem, bind. rewrite (validate_name_ok _ _ H).
  unfold resolve in Hr. unfold get, settings_get, keytransform. unfold_monad.
  destruct (defaults (self st) !! name) as [w|] eqn:Hd; simpl.
  - rewrite Hd. injection Hr as ->. eexists; split; [reflexivity | apply same_reads_refl].
  - destruct (truthy _) eqn:Ht; [|discriminate]. injection Hr as <-. simpl.
    rewrite lookup_insert_eq. eexists; split; [reflexivity|].
    repeat split. intros n. unfold resolve; simpl.
    destruct (decide (name = n)) as [<-|Hne].
    + rewrite lookup_insert_eq, Hd, Ht. reflexivity.
    + rewrite lookup_insert_ne by done. reflexivity.
Qed.

Lemma getitem_resolve_none (name : string) (st : state) :
  try_validate_name name = true ->
  resolve st name = None ->
  getitem name st = (Raise (KeyError name), st).
Proof.
  intros H Hr. unfold getitem, bind. rewrite (validate_name_ok _ _ H).
  unfold resolve in Hr. unfold get, settings_get, keytransform. unfold_monad.
  destruct (defaults (self st) !! name) as [w|] eqn:Hd; [discriminate|]. simpl.
  destruct (truthy _); [discriminate|]. simpl. rewrite Hd. reflexivity.
Qed.

Lemma bind_ok {S A B : Type} (m : M S A) (k : A -> M S B) (s s' : S) (a : A) :
  m s = (Ok a, s') -> bind m k s = k a s'.
Proof. intros H. unfold bind. rewrite H. reflexivity. Qed.

Lemma bind_raise {S A B : Type} (m : M S A) (k : A -> M S B) (s s' : S) (e : exn) :
  m s = (Raise e, s') -> bind m k s = (Raise e, s').
Proof. intros H. unfold bind. rewrite H. reflexivity. Qed.

Lemma setitem_ok (name : string) (v : value) (st : state) :
  try_validate_name name = true ->
  setitem name v st = (Ok tt, with_defaults (insert name v) st).
Proof.
  intros H. unfold setitem. rewrite (bind_ok _ _ _ _ _ (validate_name_ok _ _ H)).
  reflexivity.
Qed.

Lemma delitem_ok (name : string) (v : value) (st : state) :
  try_validate_name name = true ->
  defaults (self st) !! name = Some v ->
  delitem name st = (Ok tt, with_defaults (delete name) st).
Proof.
  intros H Hd. unfold delitem. rewrite (bind_ok _ _ _ _ _ (validate_name_ok _ _ H)).
  unfold keytransform. unfold_monad. rewrite Hd. reflexivity.
Qed.

Lemma getitem_working (name : string) (v : value) (st : state) :
  try_validate_name name = true ->
  defaults (self st) !! name = Some v ->
  getitem name st = (Ok v, st).
Proof.
  intros H Hd. unfold getitem. rewrite (bind_ok _ _ _ _ _ (validate_name_ok _ _ H)).
  unfold get, keytransform. unfold_monad. rewrite Hd. simpl. rewrite Hd. reflexivity.
Qed.

Lemma getitem_backfill (name : string) (d : value) (st : state) :
  try_validate_name name = true ->
  defaults (self st) !! name = None ->
  settings st !! ("default_" +:+ name) = Some d ->
  truthy d = true ->
  getitem name st = (Ok d, with_defaults (insert name d) st).
Proof.
  intros H Hd Hs Ht. unfold getitem.
  rewrite (bind_ok _ _ _ _ _ (validate_name_ok _ _ H)).
  unfold get, settings_get, keytransform. unfold_monad.
  rewrite Hd, Hs. simpl. rewrite Ht. simpl. rewrite lookup_insert_eq. reflexivity.
Qed.

Lemma set_user_specified_ok (name : string) (v : value) (st : state) :
  try_validate_name name = true ->
  set_user_specified name v st = (Ok tt, with_userspecified (insert name v) st).
Proof.
  intros H. unfold set_user_specified.
  rewrite (bind_ok _ _ _ _ _ (validate_name_ok _ _ H)). reflexivity.
Qed.

Lemma unset_user_specified_ok (name : string) (st : state) :
  try_validate_name name = true ->
  unset_user_specified name st = (Ok tt, with_userspecified (delete name) st).
Proof.
  intros H. unfold unset_user_specified.
  rewrite (bind_ok _ _ _ _ _ (validate_name_ok _ _ H)). unfold_monad.
  destruct (userspecified (self st) !! name) eqn:E; [reflexivity|].
  unfold with_userspecified. rewrite delete_id by done. by destruct st as [[] ?].
Qed.

Lemma contains_present (name : string) (st : state) :
  try_validate_name name = true ->
  contains name st = (Ok (present st name), st).
Proof. apply contains_resolve. Qed.

Lemma present_same_reads (st st' : state) (name : string) :
  same_reads st st' -> present st' name = present st name.
Proof. intros (_ & _ & H). unfold present. by rewrite H. Qed.

(** [name in settings and settings[name]], as a condition. *)
Lemma flag_read (name : string) (st : state) :
  try_validate_name name = true ->
  exists st',
    (let* c := contains name in
     if c then let* v := getitem name in ret (truthy v) else ret false) st
    = (Ok (flag_set st name), st') /\ same_reads st st'.
Proof.
  intros Hv. rewrite (bind_ok _ _ _ _ _ (contains_present _ _ Hv)).
  unfold present, flag_set. destruct (resolve st name) as [v|] eqn:Hr; simpl.
  - destruct (getitem_resolve_some _ _ _ Hv Hr) as (st' & Hg & Hs).
    exists st'. rewrite (bind_ok _ _ _ _ _ Hg). by split.
  - exists st. split; [reflexivity | apply same_reads_refl].
Qed.

Lemma flag_set_same_reads (st st' : state) (name : string) :
  same_reads st st' -> flag_set st' name = flag_set st name.
Proof. intros (_ & _ & H). unfold flag_set. by rewrite H. Qed.

Lemma flag_set_resolve (st : state) (name : string) :
  flag_set st name = true ->
  exists v, resolve st name = Some v /\ truthy v = true.
Proof.
  unfold flag_set. destruct (resolve st name) as [v|]; [|discriminate].
  intros H. by exists v.
Qed.

Lemma bind_assoc {S A B C : Type} (m : M S A) (f : A -> M S B) (g : B -> M S C)
  (s : S) :
  bind (bind m f) g s = bind m (fun x => bind (f x) g) s.
Proof. unfold bind. by destruct (m s) as [[a|e] s']. Qed.

Lemma flag_read_bind {B : Type} (name : string) (k : bool -> M state B) (st : state) :
  try_validate_name name = true ->
  exists st',
    (let* c := contains name in
     let* set := (if c then let* v := getitem name in ret (truthy v) else ret false) in
     k set) st
    = k (flag_set st name) st' /\ same_reads st st'.
Proof.
  intros Hv. destruct (flag_read name st Hv) as (st' & Hf & Hs).
  exists st'. split; [|exact Hs].
  rewrite <- (bind_assoc (contains name)). by rewrite (bind_ok _ _ _ _ _ Hf).
Qed.

(** ** Setting and reading a name; names outside the vocabulary *)

(** C4. For every name of the vocabulary, [set] followed by [get] returns
    exactly the value that was set. For every other name, [get], [set],
    [delete] and [contains] each raise the validation error
    ([ValueError]) at once and leave the store as it was. *)
Theorem C4_roundtrip_and_validation (st : state) (name : string) (v : value) :
  (try_validate_name name = true ->
   (setitem name v >> getitem name) st
   = (Ok v, with_defaults (insert name v) st)) /\
  (try_validate_name name = false ->
   getitem name st = (Raise (not_recognized name), st) /\
   setitem name v st = (Raise (not_recognized name), st) /\
   delitem name st = (Raise (not_recognized name), st) /\
   contains name st = (Raise (not_recognized name), st)).
Proof.
  split; intros H.
  - unfold setitem, getitem, get, keytransform, bind, validate_name.
    rewrite H. unfold_monad. unfold with_defaults; simpl.
    repeat (rewrite lookup_insert_eq; simpl). reflexivity.
  - unfold getitem, setitem, delitem, contains, bind.
    rewrite (validate_name_fails _ _ H). repeat split.
Qed.

(** The vocabulary has thirty-four names, no two of them equal. *)
Lemma postgres_variables_names :
  length postgres_variables = 34 /\ NoDup (postgres_variables.*1).
Proof.
  split; [reflexivity|].
  apply (bool_decide_unpack _). vm_compute. exact I.
Qed.

Example roundtrip_host :
  (setitem "host" (VStr "db") >> getitem "host") st0
  = (Ok (VStr "db"), mkState (mkPsqlSettings {[ "host" := VStr "db" ]} ∅) ∅).
Proof. vm_compute. reflexivity. Qed.

Example roundtrip_falsy :
  ((setitem "port" (VInt 0) >> getitem "port") st0).1 = Ok (VInt 0).
Proof. vm_compute. reflexivity. Qed.

Example unknown_name_refused :
  (getitem "hots" st0).1 = Raise (ValueError "Argument hots not recognized.") /\
  (contains "window" st0).1 = Raise (ValueError "Argument window not recognized.").
Proof. split; reflexivity. Qed.

(** ** Reads that find nothing *)

(** C10. For a name of the vocabulary that is absent from the working
    layer and whose persisted default is absent or falsy, [get] raises
    [KeyError] and [contains] answers [False]; the store with the falsy
    default behaves exactly as the store with no default at all. *)
Theorem C10_falsy_default_is_no_default (st : state) (name : string) :
  try_validate_name name = true ->
  defaults (self st) !! name = None ->
  (settings st !! ("default_" +:+ name) = None \/
   exists v, settings st !! ("default_" +:+ name) = Some v /\ truthy v = false) ->
  getitem name st = (Raise (KeyError name), st) /\
  contains name st = (Ok false, st) /\
  getitem name (with_settings (delete ("default_" +:+ name)) st)
  = (Raise (KeyError name), with_settings (delete ("default_" +:+ name)) st) /\
  contains name (with_settings (delete ("default_" +:+ name)) st)
  = (Ok false, with_settings (delete ("default_" +:+ name)) st).
Proof.
  intros Hv Hd Hp.
  assert (Hr : resolve st name = None).
  { unfold resolve. rewrite Hd.
    destruct Hp as [-> | (v & -> & Hf)]; simpl; [reflexivity | by rewrite Hf]. }
  assert (Hr' : resolve (with_settings (delete ("default_" +:+ name)) st) name = None).
  { unfold resolve; simpl. rewrite Hd, lookup_delete_eq. reflexivity. }
  repeat split.
  - by apply getitem_resolve_none.
  - rewrite contains_resolve, Hr by done. reflexivity.
  - by apply getitem_resolve_none.
  - rewrite contains_resolve, Hr' by done. reflexivity.
Qed.

(** C10 at the name [port] with the persisted default [0]. *)
Lemma C10_witness :
  getitem "port" st_falsy_port = (Raise (KeyError "port"), st_falsy_port) /\
  contains "port" st_falsy_port = (Ok false, st_falsy_port) /\
  getitem "port" (with_settings (delete ("default_" +:+ "port")) st_falsy_port)
  = (Raise (KeyError "port"),
     with_settings (delete ("default_" +:+ "port")) st_falsy_port) /\
  contains "port" (with_settings (delete ("default_" +:+ "port")) st_falsy_port)
  = (Ok false, with_settings (delete ("default_" +:+ "port")) st_falsy_port).
Proof.
  apply (C10_falsy_default_is_no_default st_falsy_port "port").
  - reflexivity.
  - reflexivity.
  - right. exists (VInt 0). split; reflexivity.
Defined.

(** ** Precedence between the layers *)

(** C1, as stated, fails: with a persisted default, a session override and
    an explicit value for [host], deleting the explicit value makes [get]
    return the persisted default and not the session override. *)
Lemma C1_counterexample :
  ((set_user_specified "host" (VStr "session") >>
    setitem "host" (VStr "explicit") >>
    delitem "host" >>
    getitem "host") st_default_host).1 = Ok (VStr "persisted") /\
  ((set_user_specified "host" (VStr "session") >>
    setitem "host" (VStr "explicit") >>
    delitem "host" >>
    getitem "host") st_default_host).1 <> Ok (VStr "session").
Proof. split; [vm_compute; reflexivity | vm_compute; discriminate]. Qed.

(** C1, amended. With a truthy persisted default [d], a session override
    [u] (set with [set_user_specified]) and an explicit value [e] set for
    a name, [get] returns [e]. After the explicit value is deleted, [get]
    returns the persisted default [d]: the working layer is one
    dictionary, and deleting the explicit entry does not bring the
    override back. After the override is cleared too, [get] returns [d].
    A reload of the working layer, which makes it a copy of the override
    layer, is what makes [u] the value that [get] returns. *)
Theorem C1_precedence_of_layers (st : state) (name : string) (d u e : value) :
  try_validate_name name = true ->
  settings st !! ("default_" +:+ name) = Some d ->
  truthy d = true ->
  exists st1 st2 st3 st4 st5,
    (set_user_specified name u >> setitem name e) st = (Ok tt, st1) /\
    userspecified (self st1) !! name = Some u /\
    getitem name st1 = (Ok e, st1) /\
    delitem name st1 = (Ok tt, st2) /\
    getitem name st2 = (Ok d, st3) /\
    unset_user_specified name st3 = (Ok tt, st4) /\
    getitem name st4 = (Ok d, st4) /\
    (reload >> getitem name) st2 = (Ok u, st5).
Proof.
  intros Hv Hd Ht.
  exists (with_defaults (insert name e) (with_userspecified (insert name u) st)).
  exists (with_defaults (delete name)
            (with_defaults (insert name e) (with_userspecified (insert name u) st))).
  exists (with_defaults (insert name d)
            (with_defaults (delete name)
               (with_defaults (insert name e) (with_userspecified (insert name u) st)))).
  eexists. eexists.
  split.
  { rewrite (bind_ok _ _ _ _ _ (set_user_specified_ok _ _ _ Hv)).
    by apply setitem_ok. }
  split; [apply lookup_insert_eq|].
  split. { apply getitem_working; [done | apply lookup_insert_eq]. }
  split. { eapply delitem_ok; [done | apply lookup_insert_eq]. }
  split. { apply getitem_backfill; [done | apply lookup_delete_eq | done | done]. }
  split. { by apply unset_user_specified_ok. }
  split. { apply getitem_working; [done | apply lookup_insert_eq]. }
  unfold reload. unfold bind at 1. unfold modify.
  apply getitem_working; [done | apply lookup_insert_eq].
Qed.

(** C1, amended, at the name [host]. *)
Lemma C1_witness :
  exists st1 st2 st3 st4 st5,
    (set_user_specified "host" (VStr "session") >>
     setitem "host" (VStr "explicit")) st_default_host = (Ok tt, st1) /\
    userspecified (self st1) !! "host" = Some (VStr "session") /\
    getitem "host" st1 = (Ok (VStr "explicit"), st1) /\
    delitem "host" st1 = (Ok tt, st2) /\
    getitem "host" st2 = (Ok (VStr "persisted"), st3) /\
    unset_user_specified "host" st3 = (Ok tt, st4) /\
    getitem "host" st4 = (Ok (VStr "persisted"), st4) /\
    (reload >> getitem "host") st2 = (Ok (VStr "session"), st5).
Proof.
  apply (C1_precedence_of_layers st_default_host "host"
           (VStr "persisted") (VStr "session") (VStr "explicit"));
    reflexivity.
Defined.

Example override_visible_after_backend_change :
  (on_object 0 (getitem "host") cs_pending_override).1 = Raise (KeyError "host") /\
  ((reload_all_windows >> on_object 0 (getitem "host")) cs_pending_override).1
  = Ok (VStr "session").
Proof. split; vm_compute; reflexivity. Qed.

(** ** Saving the overrides *)

Lemma default_key_inj (a b : string) :
  "default_" +:+ a = "default_" +:+ b -> a = b.
Proof. simpl. intros H. by injection H. Qed.

Lemma save_loop_spec (items : list (string * value)) (updates : bool) (st : state) :
  save_loop items updates st
  = (Ok (updates || bool_decide (items <> [])), with_settings (saved items) st).
Proof.
  revert updates st. induction items as [|[n v] rest IH]; intros updates st.
  - simpl. rewrite orb_false_r. by destruct st.
  - simpl. unfold settings_set, bind, modify. rewrite IH. simpl.
    rewrite orb_true_r. reflexivity.
Qed.

Lemma saved_other (items : list (string * value)) (b : gmap string value) (key : string) :
  (forall n v, (n, v) ∈ items -> key <> "default_" +:+ n) ->
  saved items b !! key = b !! key.
Proof.
  revert b. induction items as [|[n v] rest IH]; intros b H; [reflexivity|].
  unfold saved in *. simpl. rewrite IH.
  - rewrite lookup_insert_ne; [reflexivity|]. intros Heq.
    apply (H n v); [left | done].
  - intros n' v' Hin. apply (H n' v'). by right.
Qed.

Lemma saved_entry (items : list (string * value)) (b : gmap string value)
  (n : string) (v : value) :
  NoDup (items.*1) -> (n, v) ∈ items ->
  saved items b !! ("default_" +:+ n) = Some v.
Proof.
  revert b. induction items as [|[n0 v0] rest IH]; intros b Hnd Hin.
  - by apply elem_of_nil in Hin.
  - apply NoDup_cons in Hnd as [Hnot Hnd]. apply elem_of_cons in Hin as [Heq|Hin].
    + injection Heq as -> ->. change (saved ((n0, v0) :: rest) b)
        with (saved rest (<["default_" +:+ n0 := v0]> b)).
      rewrite saved_other; [apply lookup_insert_eq|].
      intros n' v' Hin' Heq. apply default_key_inj in Heq as ->.
      apply Hnot. apply list_elem_of_fmap. by exists (n', v').
    + change (saved ((n0, v0) :: rest) b)
        with (saved rest (<["default_" +:+ n0 := v0]> b)).
      by apply IH.
Qed.

(** C8, as stated, fails: a session override with a falsy value is
    persisted by [save], but the following [get] raises [KeyError] instead
    of returning the value just persisted. *)
Lemma C8_counterexample :
  settings (save st_override_falsy).2 !! "default_requiressl" = Some (VInt 0) /\
  ((save >> getitem "requiressl") st_override_falsy).1
  = Raise (KeyError "requiressl").
Proof. split; vm_compute; reflexivity. Qed.

(** C8, amended. [save] writes exactly the session-override entries into
    the persisted backend, each under [default_<name>], and writes nothing
    else. When there is at least one override it then clears the override
    layer and resets the working layer (to the empty copy of the cleared
    overrides); with no override it leaves the store untouched. Afterwards
    [has_user_specified] is false, and a [get] of a saved name returns the
    value just persisted when that value is truthy and raises [KeyError]
    when it is falsy. *)
Theorem C8_save_persists_overrides (st : state) :
  exists st',
    save st = (Ok tt, st') /\
    (forall name v, userspecified (self st) !! name = Some v ->
       settings st' !! ("default_" +:+ name) = Some v) /\
    (forall key,
       (forall name, is_Some (userspecified (self st) !! name) ->
          key <> "default_" +:+ name) ->
       settings st' !! key = settings st !! key) /\
    userspecified (self st') = ∅ /\
    has_user_specified st' = (Ok false, st') /\
    (userspecified (self st) <> ∅ -> defaults (self st') = ∅) /\
    (userspecified (self st) = ∅ -> st' = st) /\
    (forall name v, userspecified (self st) !! name = Some v ->
       try_validate_name name = true ->
       if truthy v then getitem name st' = (Ok v, with_defaults (insert name v) st')
       else getitem name st' = (Raise (KeyError name), st')).
Proof.
  destruct (decide (userspecified (self st) = ∅)) as [He|Hne].
  - exists st. unfold save, bind, gets. rewrite save_loop_spec, He.
    rewrite map_to_list_empty. simpl.
    split; [by destruct st|].
    split; [intros name v H; by rewrite lookup_empty in H|].
    split; [reflexivity|]. split; [done|].
    split; [unfold has_user_specified, gets; by rewrite He|].
    split; [done|]. split; [done|].
    intros name v H. by rewrite lookup_empty in H.
  - assert (Hl : map_to_list (userspecified (self st)) <> []).
    { intros H. by apply map_to_list_empty_iff in H. }
    exists (mkState (mkPsqlSettings ∅ ∅)
              (saved (map_to_list (userspecified (self st))) (settings st))).
    assert (Hentry : forall name v, userspecified (self st) !! name = Some v ->
              saved (map_to_list (userspecified (self st))) (settings st)
                !! ("default_" +:+ name) = Some v).
    { intros name v H. apply saved_entry.
      - apply NoDup_fst_map_to_list.
      - by apply elem_of_map_to_list. }
    split.
    { unfold save, bind, gets. rewrite save_loop_spec.
      rewrite bool_decide_eq_true_2 by done. reflexivity. }
    split; [exact Hentry|].
    split.
    { intros key H. simpl. apply saved_other. intros n v Hin.
      apply H. apply elem_of_map_to_list in Hin. eauto. }
    split; [reflexivity|]. split; [reflexivity|].
    split; [reflexivity|]. split; [done|].
    intros name v H Hv. specialize (Hentry _ _ H).
    destruct (truthy v) eqn:Ht.
    + by apply getitem_backfill.
    + apply getitem_resolve_none; [done|]. unfold resolve; simpl.
      rewrite lookup_empty, Hentry. simpl. by rewrite Ht.
Qed.

Example save_truthy_override :
  ((save >> getitem "host") st_override_host).1 = Ok (VStr "db") /\
  (save st_override_host).2
  = mkState (mkPsqlSettings ∅ ∅) {[ "default_host" := VStr "db" ]}.
Proof. split; vm_compute; reflexivity. Qed.

Example save_without_overrides :
  save (mkState (mkPsqlSettings {[ "port" := VInt 5433 ]} ∅) ∅)
  = (Ok tt, mkState (mkPsqlSettings {[ "port" := VInt 5433 ]} ∅) ∅).
Proof. vm_compute. reflexivity. Qed.

(** ** Constructing the settings of a window twice *)

Lemma update_spec (kwargs : list (string * value)) (st : state) :
  forallb (fun kv => try_validate_name kv.1) kwargs = true ->
  update kwargs st = (Ok tt, with_defaults (updated kwargs) st).
Proof.
  unfold update. revert st. induction kwargs as [|[n v] rest IH]; intros st H.
  - by destruct st as [[] ?].
  - simpl in H. apply andb_prop in H as [Hn Hrest]. simpl.
    rewrite (bind_ok _ _ _ _ _ (setitem_ok _ _ _ Hn)).
    rewrite IH by done. reflexivity.
Qed.

Lemma init_spec (kwargs : list (string * value)) (st : state) :
  forallb (fun kv => try_validate_name kv.1) kwargs = true ->
  init kwargs st
  = (Ok tt, mkState (mkPsqlSettings (updated kwargs ∅) ∅) (settings st)).
Proof.
  intros H. unfold init, reload. unfold bind at 1 2 3. unfold modify.
  rewrite update_spec by done. reflexivity.
Qed.

(** C9. Constructing the settings for a window whose id is already in the
    registry returns the reference of the cached instance (the registry and
    all other objects stay as they are), but [__init__] runs again on it:
    the override layer is empty afterwards and the working layer holds
    exactly the new keyword arguments, so whatever [set],
    [set_user_specified] or a backfilling [get] had stored before is
    gone. *)
Theorem C9_second_construction_resets (cs : class_state) (w : Z) (l : nat)
  (kwargs : list (string * value)) :
  windows cs !! w = Some l ->
  forallb (fun kv => try_validate_name kv.1) kwargs = true ->
  construct (Some w) kwargs cs
  = (Ok l, mkClass (windows cs)
                   (<[l := mkPsqlSettings (updated kwargs ∅) ∅]> (objects cs))
                   (class_settings cs)).
Proof.
  intros Hw Hk. unfold construct, new, on_object. unfold_monad.
  rewrite Hw. simpl. rewrite Hw. simpl.
  rewrite init_spec by done. reflexivity.
Qed.

(** C9 at a window whose settings held an explicit value, an override and
    a backfilled default. *)
Lemma C9_witness :
  construct (Some 7%Z) [("database", VStr "sales")] cs_one_window
  = (Ok 0, mkClass (windows cs_one_window)
                   (<[0 := mkPsqlSettings (updated [("database", VStr "sales")] ∅) ∅]>
                      (objects cs_one_window))
                   (class_settings cs_one_window)).
Proof.
  apply (C9_second_construction_resets cs_one_window 7%Z 0
           [("database", VStr "sales")]); reflexivity.
Defined.

Example second_construction_forgets :
  (on_object 0 (getitem "host") cs_one_window).1 = Ok (VStr "db") /\
  ((construct (Some 7%Z) [] >> on_object 0 (getitem "host")) cs_one_window).1
  = Raise (KeyError "host") /\
  ((construct (Some 7%Z) [] >> on_object 0 has_user_specified) cs_one_window).1
  = Ok false.
Proof. repeat split; vm_compute; reflexivity. Qed.

Example first_construction_registers :
  (construct (Some 8%Z) [] cs_one_window).1 = Ok 1 /\
  windows (construct (Some 8%Z) [] cs_one_window).2 !! 8%Z = Some 1.
Proof. split; vm_compute; reflexivity. Qed.
(** ** The dispatcher *)

Section DispatcherFacts.

Variable float : Type.
Variable isfile : string -> bool.
Variable expanduser : string -> string.
Variable ok_cancel_dialog : string -> string -> bool.
Variable time : nat -> float.

Lemma is_password_required_spec (st : state) :
  exists st',
    is_password_required isfile expanduser st
    = (Ok (flag_set st "prompt_for_password" && negb (present st "passfile")
           && negb (present st "service") && negb (isfile (expanduser "~/.pgpass"))),
       st')
    /\ same_reads st st'.
Proof.
  unfold is_password_required.
  rewrite (bind_ok _ _ _ _ _ (contains_present "prompt_for_password" st eq_refl)).
  unfold present at 1, flag_set.
  destruct (resolve st "prompt_for_password") as [v|] eqn:Hr; simpl;
    [|exists st; split; [reflexivity | apply same_reads_refl]].
  destruct (getitem_resolve_some "prompt_for_password" _ _ eq_refl Hr)
    as (st' & Hg & Hs).
  exists st'. split; [|exact Hs].
  rewrite (bind_ok _ _ _ _ _ Hg).
  destruct (truthy v); simpl; [|reflexivity].
  rewrite (bind_ok _ _ _ _ _ (contains_present "passfile" st' eq_refl)).
  rewrite (present_same_reads _ _ _ Hs).
  destruct (present st "passfile"); simpl; [reflexivity|].
  rewrite (bind_ok _ _ _ _ _ (contains_present "service" st' eq_refl)).
  rewrite (present_same_reads _ _ _ Hs).
  destruct (present st "service"); reflexivity.
Qed.

End DispatcherFacts.

(** C3 fails on the code. With the prompt flag set and no password,
    passfile, service or [~/.pgpass], [run] does not get to the input
    panel: the assignment of line 221 raises [AttributeError] before the
    settings are looked at, and the password check of lines 226-233, entered on its
    own, raises at the status message of line 230, before
    [show_input_panel]. *)
Theorem C3_run_raises_before_the_prompt :
  run Z (fun _ => false) id (fun _ _ => true) Z.of_nat (mkView "select 1;" []) []
    st_prompt
  = (Raise (AttributeError "can't set attribute"), st_prompt) /\
  password_check Z (fun _ => false) id (fun _ _ => true) Z.of_nat
    (mkView "select 1;" []) st_prompt
  = (Raise (AttributeError "'PsqlCommand' object has no attribute 'set_status'"),
     st_prompt).
Proof. split; vm_compute; reflexivity. Qed.

(** The same input with a passfile: no prompt is due, and [run] raises all
    the same. *)
Example run_raises_with_passfile :
  (run Z (fun _ => false) id (fun _ _ => true) Z.of_nat (mkView "select 1;" []) []
     st_prompt_passfile).1
  = Raise (AttributeError "can't set attribute").
Proof. vm_compute. reflexivity. Qed.

(** ** The partition into threads *)

(** C5 fails on the code. [__run_with_password] makes no thread at all:
    it raises [AttributeError] at the status message of line 258, before
    [thread_infos] is set up, whether the view has no selection, two
    selections or the settings carry a file list. What is left behind is
    the password written by line 250. *)
Theorem C5_no_thread_is_made :
  (exists msg,
     run_with_password Z (fun _ => true) id (fun _ _ => true) Z.of_nat
       (mkView "select 1;" []) VNone st0
     = (Raise (AttributeError msg), with_defaults (insert "password" VNone) st0)) /\
  (exists msg,
     (run_with_password Z (fun _ => true) id (fun _ _ => true) Z.of_nat
        (mkView "select 1; select 2;" [(0, 9); (10, 19)]) VNone st0).1
     = Raise (AttributeError msg)) /\
  (exists msg,
     (run_with_password Z (fun _ => true) id (fun _ _ => true) Z.of_nat
        view_one_selection VNone st_two_files).1
     = Raise (AttributeError msg)).
Proof. repeat split; eexists; vm_compute; reflexivity. Qed.

(** ** The completion supervisor *)

(** C2 fails on the code. A tick that finds the threads of the files
    [a.sql] and [b.sql] finished emits no notification: at the first of
    them the call of [self.set_status] raises [AttributeError], the status
    bar gets nothing and no further tick is started. While both threads
    are alive the tick only starts the next one. *)
Theorem C2_tick_raises_at_finished_file :
  supervisor_run Z Z.sub Z.mul id whole_str (fun _ => false) (fun _ => 7%Z)
    two_files_started 2 []
  = (Raise (AttributeError
              "'__PostgresQueryHandleExecution' object has no attribute 'set_status'"),
     []) /\
  supervisor_run Z Z.sub Z.mul id whole_str (fun _ => true) (fun _ => 7%Z)
    two_files_started 2 []
  = (Ok (Polling two_files_started 2), []).
Proof. split; vm_compute; reflexivity. Qed.

(** The only query of an invocation, and the second query of two. *)
Example tick_raises_at_single_query :
  (supervisor_run Z Z.sub Z.mul id whole_str (fun _ => false) (fun _ => 7%Z)
     [mkInfo (mkExecute (Some "select 1;") None) None (Some 1%Z) (Some 5%Z)] 1 []).1
  = Raise (AttributeError
             "'__PostgresQueryHandleExecution' object has no attribute 'set_status'").
Proof. vm_compute. reflexivity. Qed.

Example tick_raises_at_second_query :
  (supervisor_run Z Z.sub Z.mul id whole_str (fun i => Nat.eqb i 0) (fun _ => 7%Z)
     two_queries_started 2 []).1
  = Raise (TypeError "Can't convert 'int' object to str implicitly").
Proof. vm_compute. reflexivity. Qed.

(** ** The process worker *)

Section WorkerFacts.

Variable process : Type.
Variable environ : gmap string value.
Variable open_ : string -> result string.
Variable popen : list value -> stdin -> gmap string value -> result process.
Variable communicate : process -> option (list Byte.byte) -> result (list Byte.byte).
Variable poll_process : process -> Z.
Variable encode : string -> string -> result (list Byte.byte).
Variable decode : list Byte.byte -> string -> result string.
Variable format_exc : exn -> string.
Variable encoding : string.

Lemma get_parameter_default (name : string) (dflt : value) (st : state) :
  try_validate_name name = true ->
  truthy dflt = true ->
  exists v st', get_parameter name dflt st = (Ok v, st').
Proof.
  intros Hv Ht. unfold get_parameter.
  rewrite (bind_ok _ _ _ _ _ (contains_present _ _ Hv)). rewrite Ht.
  unfold present. destruct (resolve st name) as [v|] eqn:Hr; simpl.
  - unfold bind at 1, ret at 1.
    destruct (getitem_resolve_some _ _ _ Hv Hr) as (st' & Hg & _). eauto.
  - rewrite (bind_ok _ _ _ _ _ (setitem_ok _ _ _ Hv)).
    exists dflt. eexists. apply getitem_working; [done|]. apply lookup_insert_eq.
Qed.

(** The environment is never made: the first thing line 363 does is to
    read the accessor. *)
Lemma make_environment_raises (st : state) :
  make_environment environ encoding st = (Raise accessor_error, st).
Proof. reflexivity. Qed.

(** The body of the [try] block gets as far as the accessor. *)
Lemma run_body_raises (t : PostgresQueryExecute) (st : state) :
  exists psql_path st',
    get_parameter "psql_path" (VStr "/usr/bin/psql") st = (Ok psql_path, st') /\
    run_body process environ open_ popen communicate poll_process encode decode
      encoding t st
    = (Raise accessor_error, st').
Proof.
  destruct (get_parameter_default "psql_path" (VStr "/usr/bin/psql") st eq_refl eq_refl)
    as (psql_path & st' & Hp).
  exists psql_path, st'. split; [exact Hp|].
  unfold run_body. rewrite (bind_ok _ _ _ _ _ Hp).
  by rewrite (bind_raise _ _ _ _ _ (make_environment_raises st')).
Qed.

(** C6. [run] never raises. Whatever the body of the [try] block raises is
    caught and turned into the result handed to [set_timeout]: the
    traceback as output text and the result code 1; a result of the body
    is handed on as it is. On every input the body does raise, when line
    363 reads the accessor [postgres_variables], so what [run] delivers is
    always the traceback of that error with the code 1. *)
Theorem C6_worker_never_raises (t : PostgresQueryExecute) (st : state) :
  (forall e s,
     run_body process environ open_ popen communicate poll_process encode decode
       encoding t st
     = (Raise e, s) ->
     worker_run process environ open_ popen communicate poll_process encode decode
       format_exc encoding t st
     = (Ok (mkDelivery 1 (format_exc e)), s)) /\
  (forall d s,
     run_body process environ open_ popen communicate poll_process encode decode
       encoding t st
     = (Ok d, s) ->
     worker_run process environ open_ popen communicate poll_process encode decode
       format_exc encoding t st
     = (Ok d, s)) /\
  exists st',
    worker_run process environ open_ popen communicate poll_process encode decode
      format_exc encoding t st
    = (Ok (mkDelivery 1 (format_exc accessor_error)), st').
Proof.
  unfold worker_run, try_except. split; [|split].
  - intros e s ->. reflexivity.
  - intros d s ->. reflexivity.
  - destruct (run_body_raises t st) as (psql_path & st' & _ & ->). by exists st'.
Qed.

End WorkerFacts.

(** C7 fails on the code. For a store with a host, a worker for the query
    [select 1;] builds no environment: [make_environment] raises at the
    accessor, the child process is not started (the result is the same
    where [psql] answers and where it cannot be started), and what is
    delivered is the traceback with the code 1. *)
Theorem C7_no_environment_is_built :
  make_environment environ_latin1 "UTF-8" st_connection
  = (Raise accessor_error, st_connection) /\
  (worker_run stdin environ_latin1 no_file echo_psql echo_communicate exit_status_0
     utf8_encode utf8_decode traceback "UTF-8" (mkExecute (Some "select 1;") None)
     st_connection).1
  = Ok (mkDelivery 1
          "Traceback (most recent call last): TypeError: 'staticmethod' object is not callable") /\
  (worker_run stdin environ_latin1 no_file no_psql echo_communicate exit_status_0
     utf8_encode utf8_decode traceback "UTF-8" (mkExecute (Some "select 1;") None)
     st_connection).1
  = Ok (mkDelivery 1
          "Traceback (most recent call last): TypeError: 'staticmethod' object is not callable").
Proof. repeat split; vm_compute; reflexivity. Qed.

Example worker_with_file_delivers_the_same :
  (worker_run stdin environ_latin1 no_file echo_psql echo_communicate exit_status_0
     utf8_encode utf8_decode traceback "UTF-8" (mkExecute None (Some "a.sql"))
     st0).1
  = Ok (mkDelivery 1
          "Traceback (most recent call last): TypeError: 'staticmethod' object is not callable").
Proof. vm_compute. reflexivity. Qed.

(** ** More facts about the settings store *)

Lemma getitem_ok_inv (name : string) (v : value) (st st' : state) :
  getitem name st = (Ok v, st') ->
  try_validate_name name = true /\
  resolve st name = Some v /\
  defaults (self st') !! name = Some v /\
  same_reads st st'.
Proof.
  intros H. destruct (try_validate_name name) eqn:Hv.
  - split; [reflexivity|].
    destruct (resolve st name) as [w|] eqn:Hr.
    + destruct (defaults (self st) !! name) as [x|] eqn:Hd.
      * rewrite (getitem_working _ _ _ Hv Hd) in H. injection H as <- <-.
        unfold resolve in Hr. rewrite Hd in Hr. injection Hr as <-.
        repeat split; done.
      * unfold resolve in Hr. rewrite Hd in Hr.
        destruct (settings st !! ("default_" +:+ name)) as [d|] eqn:Hs;
          [|discriminate]. simpl in Hr.
        destruct (truthy d) eqn:Ht; [|discriminate]. injection Hr as <-.
        rewrite (getitem_backfill _ _ _ Hv Hd Hs Ht) in H. injection H as <- <-.
        split; [reflexivity|]. split; [apply lookup_insert_eq|].
        destruct (getitem_resolve_some name d st Hv) as (st2 & Hg & Hsr).
        { unfold resolve. rewrite Hd, Hs. simpl. by rewrite Ht. }
        rewrite (getitem_backfill _ _ _ Hv Hd Hs Ht) in Hg. by injection Hg as <-.
    + rewrite (getitem_resolve_none _ _ Hv Hr) in H. discriminate.
  - unfold getitem in H. rewrite (bind_raise _ _ _ _ _ (validate_name_fails _ _ Hv)) in H.
    discriminate.
Qed.

(** X1. A read that succeeds can be repeated: the second [get] of the same
    name returns the same value and leaves the store exactly as the first
    one left it, so the backfill of a persisted default happens once. *)
Theorem X1_get_is_repeatable (name : string) (v : value) (st st' : state) :
  getitem name st = (Ok v, st') ->
  getitem name st' = (Ok v, st').
Proof.
  intros H. destruct (getitem_ok_inv _ _ _ _ H) as (Hv & _ & Hd & _).
  by apply getitem_working.
Qed.

(** X1 at the name [host], which only has a persisted default. *)
Lemma X1_witness :
  getitem "host" (with_defaults (insert "host" (VStr "persisted")) st_default_host)
  = (Ok (VStr "persisted"),
     with_defaults (insert "host" (VStr "persisted")) st_default_host).
Proof.
  apply (X1_get_is_repeatable "host" (VStr "persisted") st_default_host).
  vm_compute. reflexivity.
Defined.

(** X2. A name that is only known through a truthy persisted default is
    contained in the mapping, yet deleting it raises [KeyError] and
    changes nothing. Once a [get] has copied the default into the working
    layer, the deletion succeeds, removes only that copy, and the name is
    contained as before. *)
Theorem X2_default_cannot_be_deleted (name : string) (d : value) (st : state) :
  try_validate_name name = true ->
  defaults (self st) !! name = None ->
  settings st !! ("default_" +:+ name) = Some d ->
  truthy d = true ->
  contains name st = (Ok true, st) /\
  delitem name st = (Raise (KeyError name), st) /\
  (getitem name >> delitem name) st = (Ok tt, st) /\
  (getitem name >> delitem name >> contains name) st = (Ok true, st).
Proof.
  intros Hv Hd Hs Ht.
  assert (Hc : contains name st = (Ok true, st)).
  { rewrite (contains_resolve _ _ Hv). unfold resolve. rewrite Hd, Hs. simpl.
    by rewrite Ht. }
  assert (Hback : with_defaults (delete name) (with_defaults (insert name d) st) = st).
  { unfold with_defaults. simpl. rewrite delete_insert_id by done. by destruct st as [[] ?]. }
  split; [exact Hc|]. split.
  - unfold delitem. rewrite (bind_ok _ _ _ _ _ (validate_name_ok _ _ Hv)).
    unfold keytransform. unfold_monad. by rewrite Hd.
  - assert (Hgd : (getitem name >> delitem name) st = (Ok tt, st)).
    { rewrite (bind_ok _ _ _ _ _ (getitem_backfill _ _ _ Hv Hd Hs Ht)).
      rewrite (delitem_ok name d); [by rewrite Hback | done | apply lookup_insert_eq]. }
    split; [exact Hgd|].
    rewrite (bind_ok _ _ _ _ _ (getitem_backfill _ _ _ Hv Hd Hs Ht)).
    assert (Hdel : delitem name (with_defaults (insert name d) st)
                   = (Ok tt, with_defaults (delete name)
                               (with_defaults (insert name d) st))).
    { apply (delitem_ok name d); [done | apply lookup_insert_eq]. }
    rewrite (bind_ok _ _ _ _ _ Hdel), Hback. exact Hc.
Qed.

(** X2 at the name [host] with the persisted default ["persisted"]. *)
Lemma X2_witness :
  contains "host" st_default_host = (Ok true, st_default_host) /\
  delitem "host" st_default_host = (Raise (KeyError "host"), st_default_host) /\
  (getitem "host" >> delitem "host") st_default_host = (Ok tt, st_default_host) /\
  (getitem "host" >> delitem "host" >> contains "host") st_default_host
  = (Ok true, st_default_host).
Proof.
  apply (X2_default_cannot_be_deleted "host" (VStr "persisted") st_default_host);
    reflexivity.
Defined.

(** X3. Setting a name and deleting it again leaves the working layer
    without the name, whatever it held before; when the name was absent,
    the store is exactly as it was. *)
Theorem X3_set_then_delete (name : string) (v : value) (st : state) :
  try_validate_name name = true ->
  (setitem name v >> delitem name) st = (Ok tt, with_defaults (delete name) st) /\
  (defaults (self st) !! name = None ->
   (setitem name v >> delitem name) st = (Ok tt, st)).
Proof.
  intros Hv.
  assert (H : (setitem name v >> delitem name) st
              = (Ok tt, with_defaults (delete name) st)).
  { rewrite (bind_ok _ _ _ _ _ (setitem_ok _ v st Hv)).
    rewrite (delitem_ok name v); [|done|apply lookup_insert_eq].
    unfold with_defaults. simpl. by rewrite delete_insert_eq. }
  split; [exact H|]. intros Hd. rewrite H.
  unfold with_defaults. rewrite delete_id by done. by destruct st as [[] ?].
Qed.

(** X3 at the name [port]. *)
Lemma X3_witness :
  (setitem "port" (VInt 5433) >> delitem "port") st_default_host
  = (Ok tt, with_defaults (delete "port") st_default_host) /\
  (defaults (self st_default_host) !! "port" = None ->
   (setitem "port" (VInt 5433) >> delitem "port") st_default_host
   = (Ok tt, st_default_host)).
Proof.
  apply (X3_set_then_delete "port" (VInt 5433) st_default_host). reflexivity.
Defined.

Lemma resolve_insert_ne (n m : string) (v : value) (st : state) :
  n <> m -> resolve (with_defaults (insert n v) st) m = resolve st m.
Proof. intros H. unfold resolve. simpl. by rewrite lookup_insert_ne. Qed.

Lemma resolve_delete_ne (n m : string) (st : state) :
  n <> m -> resolve (with_defaults (delete n) st) m = resolve st m.
Proof. intros H. unfold resolve. simpl. by rewrite lookup_delete_ne. Qed.

Lemma setitem_state (n : string) (v : value) (st : state) :
  (setitem n v st).2 = st \/ (setitem n v st).2 = with_defaults (insert n v) st.
Proof.
  destruct (try_validate_name n) eqn:Hv.
  - right. by rewrite (setitem_ok _ _ _ Hv).
  - left. unfold setitem. by rewrite (bind_raise _ _ _ _ _ (validate_name_fails _ _ Hv)).
Qed.

Lemma delitem_state (n : string) (st : state) :
  (delitem n st).2 = st \/ (delitem n st).2 = with_defaults (delete n) st.
Proof.
  destruct (try_validate_name n) eqn:Hv.
  - destruct (defaults (self st) !! n) as [w|] eqn:Hd.
    + right. by rewrite (delitem_ok _ _ _ Hv Hd).
    + left. unfold delitem. rewrite (bind_ok _ _ _ _ _ (validate_name_ok _ _ Hv)).
      unfold keytransform. unfold_monad. by rewrite Hd.
  - left. unfold delitem. by rewrite (bind_raise _ _ _ _ _ (validate_name_fails _ _ Hv)).
Qed.

Lemma getitem_state (n : string) (st : state) :
  same_reads st (getitem n st).2.
Proof.
  destruct (getitem n st) as [[v|e] st'] eqn:H.
  - by destruct (getitem_ok_inv _ _ _ _ H) as (_ & _ & _ & Hs).
  - simpl. destruct (try_validate_name n) eqn:Hv.
    + destruct (resolve st n) as [w|] eqn:Hr.
      * destruct (getitem_resolve_some _ _ _ Hv Hr) as (st2 & Hg & _). congruence.
      * rewrite (getitem_resolve_none _ _ Hv Hr) in H. injection H as _ <-.
        apply same_reads_refl.
    + unfold getitem in H.
      rewrite (bind_raise _ _ _ _ _ (validate_name_fails _ _ Hv)) in H.
      injection H as _ <-. apply same_reads_refl.
Qed.

(** X4. Writing, deleting or reading one name never changes what any
    other name resolves to, and none of the three touches the override
    layer or the persisted backend. A read does not even change what its
    own name resolves to. *)
Theorem X4_operations_are_local (n m : string) (v : value) (st : state) :
  n <> m ->
  resolve (setitem n v st).2 m = resolve st m /\
  resolve (delitem n st).2 m = resolve st m /\
  resolve (getitem n st).2 m = resolve st m /\
  resolve (getitem n st).2 n = resolve st n /\
  userspecified (self (setitem n v st).2) = userspecified (self st) /\
  userspecified (self (delitem n st).2) = userspecified (self st) /\
  userspecified (self (getitem n st).2) = userspecified (self st) /\
  settings (setitem n v st).2 = settings st /\
  settings (delitem n st).2 = settings st /\
  settings (getitem n st).2 = settings st.
Proof.
  intros Hne.
  destruct (getitem_state n st) as (Hgs & Hgu & Hgr).
  destruct (setitem_state n v st) as [-> | ->];
    destruct (delitem_state n st) as [-> | ->];
    rewrite ?resolve_insert_ne, ?resolve_delete_ne by done;
    repeat split; auto.
Qed.

(** X4 at the names [host] and [port]. *)
Lemma X4_witness :
  resolve (setitem "host" (VStr "other") st_host_and_default_port).2 "port"
  = resolve st_host_and_default_port "port" /\
  resolve (delitem "host" st_host_and_default_port).2 "port"
  = resolve st_host_and_default_port "port" /\
  resolve (getitem "host" st_host_and_default_port).2 "port"
  = resolve st_host_and_default_port "port" /\
  resolve (getitem "host" st_host_and_default_port).2 "host"
  = resolve st_host_and_default_port "host" /\
  userspecified (self (setitem "host" (VStr "other") st_host_and_default_port).2)
  = userspecified (self st_host_and_default_port) /\
  userspecified (self (delitem "host" st_host_and_default_port).2)
  = userspecified (self st_host_and_default_port) /\
  userspecified (self (getitem "host" st_host_and_default_port).2)
  = userspecified (self st_host_and_default_port) /\
  settings (setitem "host" (VStr "other") st_host_and_default_port).2
  = settings st_host_and_default_port /\
  settings (delitem "host" st_host_and_default_port).2
  = settings st_host_and_default_port /\
  settings (getitem "host" st_host_and_default_port).2
  = settings st_host_and_default_port.
Proof.
  apply (X4_operations_are_local "host" "port" (VStr "other") st_host_and_default_port).
  discriminate.
Defined.

(** X5. [len] counts the working layer only. A name that is known through
    a persisted default alone is contained but not counted; the first
    successful [get] of it makes the mapping one longer, and a [get] of a
    name that is already in the working layer leaves the length alone. *)
Theorem X5_length_counts_working_layer (name : string) (v : value) (st st' : state) :
  getitem name st = (Ok v, st') ->
  len st' = (Ok (match defaults (self st) !! name with
                 | Some _ => size (defaults (self st))
                 | None => S (size (defaults (self st)))
                 end), st').
Proof.
  intros H. destruct (getitem_ok_inv _ _ _ _ H) as (Hv & Hr & _ & _).
  unfold len, gets. f_equal. f_equal.
  destruct (defaults (self st) !! name) as [w|] eqn:Hd.
  - rewrite (getitem_working _ _ _ Hv Hd) in H. by injection H as _ <-.
  - unfold resolve in Hr. rewrite Hd in Hr.
    destruct (settings st !! ("default_" +:+ name)) as [d|] eqn:Hs; [|discriminate].
    simpl in Hr. destruct (truthy d) eqn:Ht; [|discriminate].
    rewrite (getitem_backfill _ _ _ Hv Hd Hs Ht) in H. injection H as _ <-.
    simpl. by apply map_size_insert_None.
Qed.

(** X5 at the name [port], known through its persisted default only. *)
Lemma X5_witness :
  len (with_defaults (insert "port" (VStr "5433")) st_host_and_default_port)
  = (Ok (match defaults (self st_host_and_default_port) !! "port" with
         | Some _ => size (defaults (self st_host_and_default_port))
         | None => S (size (defaults (self st_host_and_default_port)))
         end),
     with_defaults (insert "port" (VStr "5433")) st_host_and_default_port).
Proof.
  apply (X5_length_counts_working_layer "port" (VStr "5433") st_host_and_default_port).
  vm_compute. reflexivity.
Defined.

(** X6. After [set_user_specified] the store has user-specified values.
    Unsetting a name that has no override changes nothing and does not
    raise; setting an override for such a name and unsetting it again
    gives back the store as it was. *)
Theorem X6_override_round_trip (name : string) (v : value) (st : state) :
  try_validate_name name = true ->
  (set_user_specified name v >> has_user_specified) st
  = (Ok true, with_userspecified (insert name v) st) /\
  (userspecified (self st) !! name = None ->
   unset_user_specified name st = (Ok tt, st) /\
   (set_user_specified name v >> unset_user_specified name) st = (Ok tt, st)).
Proof.
  intros Hv. split.
  - rewrite (bind_ok _ _ _ _ _ (set_user_specified_ok _ v st Hv)).
    unfold has_user_specified, gets. f_equal. f_equal.
    apply bool_decide_eq_true_2. simpl.
    assert (size (<[name:=v]> (userspecified (self st))) <> 0); [|lia].
    rewrite map_size_non_empty_iff. apply insert_non_empty.
  - intros Hu.
    assert (Hid : forall s, userspecified (self s) !! name = None ->
                    with_userspecified (delete name) s = s).
    { intros s Hs. unfold with_userspecified. rewrite delete_id by done.
      by destruct s as [[] ?]. }
    split.
    + rewrite (unset_user_specified_ok _ _ Hv). by rewrite Hid.
    + rewrite (bind_ok _ _ _ _ _ (set_user_specified_ok _ v st Hv)).
      rewrite (unset_user_specified_ok _ _ Hv).
      unfold with_userspecified. simpl. rewrite delete_insert_id by done.
      by destruct st as [[] ?].
Qed.

(** X6 at the name [host] on a store without overrides. *)
Lemma X6_witness :
  (set_user_specified "host" (VStr "db") >> has_user_specified) st_default_host
  = (Ok true, with_userspecified (insert "host" (VStr "db")) st_default_host) /\
  (userspecified (self st_default_host) !! "host" = None ->
   unset_user_specified "host" st_default_host = (Ok tt, st_default_host) /\
   (set_user_specified "host" (VStr "db") >> unset_user_specified "host")
     st_default_host
   = (Ok tt, st_default_host)).
Proof.
  apply (X6_override_round_trip "host" (VStr "db") st_default_host). reflexivity.
Defined.

Lemma save_without_override (st : state) :
  userspecified (self st) = ∅ -> save st = (Ok tt, st).
Proof.
  intros He. unfold save, bind, gets. rewrite save_loop_spec, He, map_to_list_empty.
  simpl. by destruct st.
Qed.

Lemma save_with_override (st : state) :
  userspecified (self st) <> ∅ ->
  save st
  = (Ok tt, mkState (mkPsqlSettings ∅ ∅)
                    (saved (map_to_list (userspecified (self st))) (settings st))).
Proof.
  intros Hne. unfold save, bind, gets. rewrite save_loop_spec.
  rewrite bool_decide_eq_true_2; [reflexivity|].
  intros H. by apply map_to_list_empty_iff in H.
Qed.

(** X7. Saving twice is saving once: the second [save] finds no override,
    writes nothing to the backend and leaves both layers alone. *)
Theorem X7_save_twice (st : state) :
  (save >> save) st = save st.
Proof.
  destruct (decide (userspecified (self st) = ∅)) as [He|Hne].
  - rewrite (bind_ok _ _ _ _ _ (save_without_override _ He)).
    reflexivity.
  - rewrite (bind_ok _ _ _ _ _ (save_with_override _ Hne)).
    rewrite save_without_override by reflexivity. by rewrite save_with_override.
Qed.

Lemma update_stops (good rest : list (string * value)) (bad : string) (v : value)
  (st : state) :
  forallb (fun kv => try_validate_name kv.1) good = true ->
  try_validate_name bad = false ->
  update (good ++ (bad, v) :: rest) st
  = (Raise (not_recognized bad), with_defaults (updated good) st).
Proof.
  unfold update. revert st. induction good as [|[n x] good IH]; intros st Hg Hb.
  - simpl. unfold setitem.
    rewrite (bind_raise _ _ _ _ _ (bind_raise _ _ _ _ _ (validate_name_fails _ _ Hb))).
    by destruct st as [[] ?].
  - simpl in Hg. apply andb_prop in Hg as [Hn Hg]. simpl.
    rewrite (bind_ok _ _ _ _ _ (setitem_ok _ _ _ Hn)). by rewrite IH.
Qed.

(** X8. A keyword that is not in the vocabulary makes the constructor
    raise [ValueError], but only after the layers have been reset and the
    keywords before it have been written. For a window that is already
    registered, the failed construction therefore still wipes the cached
    settings object, which stays registered. *)
Theorem X8_failed_construction_resets (cs : class_state) (w : Z) (l : nat)
  (good rest : list (string * value)) (bad : string) (v : value) :
  windows cs !! w = Some l ->
  forallb (fun kv => try_validate_name kv.1) good = true ->
  try_validate_name bad = false ->
  construct (Some w) (good ++ (bad, v) :: rest) cs
  = (Raise (not_recognized bad),
     mkClass (windows cs)
             (<[l := mkPsqlSettings (updated good ∅) ∅]> (objects cs))
             (class_settings cs)).
Proof.
  intros Hw Hg Hb. unfold construct, new, on_object. unfold_monad.
  rewrite Hw. simpl. rewrite Hw. simpl.
  unfold init, reload. unfold bind at 1 2 3. unfold modify.
  rewrite update_stops by done. reflexivity.
Qed.

(** X8 at a registered window, with one good keyword before the bad one. *)
Lemma X8_witness :
  construct (Some 7%Z)
    ([("database", VStr "sales")] ++ ("window", VInt 7) :: [("port", VInt 1)])
    cs_one_window
  = (Raise (not_recognized "window"),
     mkClass (windows cs_one_window)
             (<[0 := mkPsqlSettings (updated [("database", VStr "sales")] ∅) ∅]>
                (objects cs_one_window))
             (class_settings cs_one_window)).
Proof.
  apply (X8_failed_construction_resets cs_one_window 7%Z 0
           [("database", VStr "sales")] [("port", VInt 1)] "window" (VInt 7));
    reflexivity.
Defined.

(** X9. An explicit value does not survive a reload. After [set] and a
    reload of the working layer, [get] returns the session override when
    there is one, else the persisted default when it is truthy, and raises
    [KeyError] otherwise; the value that was set is never returned
    because it was set. *)
Theorem X9_reload_drops_explicit_values (name : string) (e : value) (st : state) :
  try_validate_name name = true ->
  ((setitem name e >> reload >> getitem name) st).1
  = match userspecified (self st) !! name with
    | Some u => Ok u
    | None =>
        match persisted_default st name with
        | Some d => Ok d
        | None => Raise (KeyError name)
        end
    end.
Proof.
  intros Hv. rewrite (bind_ok _ _ _ _ _ (setitem_ok _ e st Hv)).
  unfold reload. unfold bind at 1. unfold modify.
  set (st' := with_defaults _ _).
  assert (Hr : resolve st' name
               = match userspecified (self st) !! name with
                 | Some u => Some u
                 | None => persisted_default st name
                 end).
  { unfold resolve, persisted_default, st'. simpl.
    by destruct (userspecified (self st) !! name). }
  destruct (userspecified (self st) !! name) as [u|].
  - destruct (getitem_resolve_some _ _ _ Hv Hr) as (s & -> & _). reflexivity.
  - destruct (persisted_default st name) as [d|].
    + destruct (getitem_resolve_some _ _ _ Hv Hr) as (s & -> & _). reflexivity.
    + by rewrite (getitem_resolve_none _ _ Hv Hr).
Qed.

(** X9 at the name [host], which has an override and a persisted default. *)
Lemma X9_witness :
  ((setitem "host" (VStr "explicit") >> reload >> getitem "host") st_three_layers).1
  = match userspecified (self st_three_layers) !! "host" with
    | Some u => Ok u
    | None =>
        match persisted_default st_three_layers "host" with
        | Some d => Ok d
        | None => Raise (KeyError "host")
        end
    end.
Proof.
  apply (X9_reload_drops_explicit_values "host" (VStr "explicit") st_three_layers).
  reflexivity.
Defined.

(** ** More facts about the registry *)

Lemma new_registered (w : Z) (l : nat) (kwargs : list (string * value))
  (cs : class_state) :
  windows cs !! w = Some l -> new (Some w) kwargs cs = (Ok l, cs).
Proof. intros H. unfold new. unfold_monad. rewrite H. simpl. by rewrite H. Qed.

(** With keywords, no object is made, for a window that is not registered
    as without a window. *)
Lemma new_refused (window : option Z) (kwargs : list (string * value))
  (cs : class_state) :
  kwargs <> [] ->
  match window with Some w => windows cs !! w = None | None => True end ->
  new window kwargs cs = (Raise object_new_error, cs).
Proof.
  intros Hk Hw. destruct kwargs as [|kv kwargs]; [done|].
  destruct window as [w|]; [|reflexivity].
  unfold new. unfold_monad. by rewrite Hw.
Qed.

Lemma new_unregistered (w : Z) (cs : class_state) :
  windows cs !! w = None ->
  new (Some w) [] cs
  = (Ok (fresh (dom (objects cs))),
     mkClass (<[w := fresh (dom (objects cs))]> (windows cs))
             (<[fresh (dom (objects cs)) := mkPsqlSettings ∅ ∅]> (objects cs))
             (class_settings cs)).
Proof.
  intros H. unfold new, allocate. unfold_monad. rewrite H. simpl.
  by rewrite lookup_insert_eq.
Qed.

Lemma fresh_object (cs : class_state) : objects cs !! fresh (dom (objects cs)) = None.
Proof. apply not_elem_of_dom. apply is_fresh. Qed.

Lemma on_object_state {A : Type} (l : nat) (m : M state A) (cs : class_state) :
  on_object l m cs
  = ((m (mkState (object_at cs l) (class_settings cs))).1,
     mkClass (windows cs)
             (<[l := self (m (mkState (object_at cs l) (class_settings cs))).2]>
                (objects cs))
             (settings (m (mkState (object_at cs l) (class_settings cs))).2)).
Proof. unfold on_object. by destruct (m _). Qed.

Lemma registry_ok_insert (cs : class_state) (l : nat) (o : PsqlSettings)
  (s : gmap string value) :
  registry_ok cs -> registry_ok (mkClass (windows cs) (<[l := o]> (objects cs)) s).
Proof.
  intros [H1 H2]. split; simpl; [|exact H2].
  intros w l' Hw. destruct (decide (l = l')) as [->|Hne].
  - rewrite lookup_insert_eq. eauto.
  - rewrite lookup_insert_ne by done. by apply (H1 w).
Qed.

Lemma registry_ok_new (window : option Z) (kwargs : list (string * value))
  (cs : class_state) :
  registry_ok cs -> registry_ok (new window kwargs cs).2.
Proof.
  intros Hok.
  destruct kwargs as [|kv kwargs];
    [|destruct window as [w|];
      [destruct (windows cs !! w) as [l|] eqn:Hw;
       [by rewrite (new_registered _ _ _ _ Hw)
       |by rewrite (new_refused (Some w) (kv :: kwargs) cs)]
      |by rewrite (new_refused None (kv :: kwargs) cs)]].
  destruct window as [w|].
  - destruct (windows cs !! w) as [l|] eqn:Hw.
    + by rewrite (new_registered _ _ _ _ Hw).
    + rewrite (new_unregistered _ _ Hw). simpl. destruct Hok as [H1 H2].
      split; simpl.
      * intros w' l' H. destruct (decide (w = w')) as [->|Hne].
        -- rewrite lookup_insert_eq in H. injection H as <-.
           rewrite lookup_insert_eq. eauto.
        -- rewrite lookup_insert_ne in H by done.
           destruct (H1 _ _ H) as [o Ho].
           destruct (decide (fresh (dom (objects cs)) = l')) as [<-|Hl].
           ++ rewrite lookup_insert_eq. eauto.
           ++ rewrite lookup_insert_ne by done. eauto.
      * intros w1 w2 l Ha Hb.
        destruct (decide (w1 = w)) as [->|Hn1], (decide (w2 = w)) as [->|Hn2];
          [done | | |].
        -- rewrite lookup_insert_eq in Ha. injection Ha as <-.
           rewrite lookup_insert_ne in Hb by done.
           destruct (H1 _ _ Hb) as [o Ho]. by rewrite fresh_object in Ho.
        -- rewrite lookup_insert_eq in Hb. injection Hb as <-.
           rewrite lookup_insert_ne in Ha by done.
           destruct (H1 _ _ Ha) as [o Ho]. by rewrite fresh_object in Ho.
        -- rewrite lookup_insert_ne in Ha, Hb by done. by apply (H2 w1 w2 l).
  - simpl. unfold allocate. simpl. by apply registry_ok_insert.
Qed.

(** After a construction the class is as [__new__] left it, but for the
    object that [__init__] worked on when [__new__] gave one. *)
Lemma construct_state (window : option Z) (kwargs : list (string * value))
  (cs : class_state) :
  (construct window kwargs cs).2 = (new window kwargs cs).2 \/
  exists l o s,
    (construct window kwargs cs).2
    = mkClass (windows (new window kwargs cs).2)
              (<[l := o]> (objects (new window kwargs cs).2)) s.
Proof.
  unfold construct, bind.
  destruct (new window kwargs cs) as [[l|e] cs1]; [right | by left].
  rewrite on_object_state. simpl.
  destruct (init kwargs _) as [[[]|e] st']; simpl; eauto.
Qed.

Lemma for_each_preserves {S A : Type} (P : S -> Prop) (body : A -> M S unit)
  (l : list A) (s : S) :
  (forall x s, P s -> P (body x s).2) -> P s -> P (for_each l body s).2.
Proof.
  intros Hb. revert s. induction l as [|x l IH]; intros s Hs; [exact Hs|].
  simpl. unfold bind. pose proof (Hb x s Hs) as Hx.
  destruct (body x s) as [[[]|e] s1]; simpl in *; [by apply IH | exact Hx].
Qed.

(** X10. The registry stays in order: from the empty registry on, after
    any construction (for a window or without one, failing or not), any
    [window_closed] and any reload of all windows, every registered
    reference stands for an object and no two windows share a settings
    object. *)
Theorem X10_registry_stays_in_order :
  (forall s, registry_ok (mkClass ∅ ∅ s)) /\
  (forall cs window kwargs w,
     registry_ok cs ->
     registry_ok (construct window kwargs cs).2 /\
     registry_ok (window_closed w cs).2 /\
     registry_ok (reload_all_windows cs).2).
Proof.
  split.
  - intros s. split; simpl; intros *; by rewrite lookup_empty.
  - intros cs window kwargs w Hok. split; [|split].
    + destruct (construct_state window kwargs cs) as [->|(l & o & s & ->)];
        [|apply registry_ok_insert]; by apply registry_ok_new.
    + destruct Hok as [H1 H2]. unfold window_closed, modify. split; simpl.
      * intros w' l H. apply lookup_delete_Some in H as [_ H]. by apply (H1 w').
      * intros w1 w2 l Ha Hb. apply lookup_delete_Some in Ha as [_ Ha].
        apply lookup_delete_Some in Hb as [_ Hb]. by apply (H2 w1 w2 l).
    + unfold reload_all_windows, bind, gets.
      apply (for_each_preserves registry_ok); [|exact Hok].
      intros x s Hs. rewrite on_object_state. simpl. by apply registry_ok_insert.
Qed.

Lemma two_windows_lookup (w : Z) (l : nat) :
  windows cs_two_windows !! w = Some l ->
  (w = 7%Z /\ l = 0) \/ (w = 8%Z /\ l = 1).
Proof.
  intros H. apply elem_of_map_to_list in H.
  assert (He : map_to_list (windows cs_two_windows) = [(7%Z, 0); (8%Z, 1)])
    by (vm_compute; reflexivity).
  rewrite He in H. apply elem_of_cons in H as [H|H].
  - injection H as -> ->. by left.
  - apply elem_of_cons in H as [H|H]; [|by apply elem_of_nil in H].
    injection H as -> ->. by right.
Qed.

Lemma registry_ok_two_windows : registry_ok cs_two_windows.
Proof.
  split.
  - intros w l H. destruct (two_windows_lookup _ _ H) as [[-> ->]|[-> ->]];
      vm_compute; eauto.
  - intros w1 w2 l Ha Hb.
    destruct (two_windows_lookup _ _ Ha) as [[-> ->]|[-> ->]],
             (two_windows_lookup _ _ Hb) as [[-> ?]|[-> ?]]; congruence.
Qed.

Lemma construct_unregistered (cs : class_state) (w : Z) :
  windows cs !! w = None ->
  construct (Some w) [] cs
  = (Ok (fresh (dom (objects cs))),
     mkClass (<[w := fresh (dom (objects cs))]> (windows cs))
             (<[fresh (dom (objects cs)) := mkPsqlSettings ∅ ∅]> (objects cs))
             (class_settings cs)).
Proof.
  intros Hw. unfold construct.
  rewrite (bind_ok _ _ _ _ _ (new_unregistered _ _ Hw)).
  unfold bind. rewrite on_object_state. rewrite (init_spec []) by done.
  simpl. by rewrite insert_insert_eq.
Qed.

Lemma construct_refused (cs : class_state) (w : Z) (kwargs : list (string * value)) :
  windows cs !! w = None ->
  kwargs <> [] ->
  construct (Some w) kwargs cs = (Raise object_new_error, cs).
Proof.
  intros Hw Hk. unfold construct.
  by rewrite (bind_raise _ _ _ _ _ (new_refused (Some w) kwargs cs Hk Hw)).
Qed.

Lemma construct_registered (cs : class_state) (w : Z) (l : nat)
  (kwargs : list (string * value)) :
  windows cs !! w = Some l ->
  forallb (fun kv => try_validate_name kv.1) kwargs = true ->
  construct (Some w) kwargs cs
  = (Ok l, mkClass (windows cs)
                   (<[l := mkPsqlSettings (updated kwargs ∅) ∅]> (objects cs))
                   (class_settings cs)).
Proof.
  intros Hw Hk. unfold construct.
  rewrite (bind_ok _ _ _ _ _ (new_registered _ _ kwargs _ Hw)).
  unfold bind. rewrite on_object_state. simpl.
  rewrite init_spec by done. reflexivity.
Qed.

(** X11. The first construction for a window succeeds only without
    keywords other than the window: it then makes a new object, distinct
    from every object there is, and registers it, and the objects that
    were there are left as they are. With a keyword it raises [TypeError]
    and registers nothing. Every later construction for the window, with
    keywords or without, returns the registered object. *)
Theorem X11_one_object_per_window (cs : class_state) (w : Z)
  (k1 k2 : list (string * value)) :
  windows cs !! w = None ->
  k1 <> [] ->
  forallb (fun kv => try_validate_name kv.1) k2 = true ->
  construct (Some w) k1 cs = (Raise object_new_error, cs) /\
  exists l cs1,
    construct (Some w) [] cs = (Ok l, cs1) /\
    objects cs !! l = None /\
    windows cs1 = <[w := l]> (windows cs) /\
    (forall l', l' <> l -> objects cs1 !! l' = objects cs !! l') /\
    (construct (Some w) k2 cs1).1 = Ok l.
Proof.
  intros Hw H1 H2. split; [by apply construct_refused|].
  eexists _, _. split; [by apply construct_unregistered|].
  split; [apply fresh_object|]. split; [reflexivity|]. split.
  - intros l' Hne. simpl. by rewrite lookup_insert_ne.
  - erewrite construct_registered; [reflexivity | apply lookup_insert_eq | done].
Qed.

(** X11 at a window that is not registered yet. *)
Lemma X11_witness :
  construct (Some 9%Z) [("host", VStr "db")] cs_two_windows
  = (Raise object_new_error, cs_two_windows) /\
  exists l cs1,
    construct (Some 9%Z) [] cs_two_windows = (Ok l, cs1) /\
    objects cs_two_windows !! l = None /\
    windows cs1 = <[9%Z := l]> (windows cs_two_windows) /\
    (forall l', l' <> l -> objects cs1 !! l' = objects cs_two_windows !! l') /\
    (construct (Some 9%Z) [("host", VStr "db")] cs1).1 = Ok l.
Proof.
  apply (X11_one_object_per_window cs_two_windows 9%Z [("host", VStr "db")]
           [("host", VStr "db")]); [reflexivity | discriminate | reflexivity].
Defined.

(** X12. Closing a window that is not registered changes nothing. After a
    registered window has been closed, a construction for it without
    keywords makes a new object that is not the old one; the old object
    is still there, untouched, but no longer reachable through the
    registry. A construction with a keyword raises [TypeError], and the
    window stays closed. *)
Theorem X12_closed_window_gets_new_object (cs : class_state) (w : Z) (l : nat)
  (kwargs : list (string * value)) :
  registry_ok cs ->
  windows cs !! w = Some l ->
  kwargs <> [] ->
  (forall w', windows cs !! w' = None -> window_closed w' cs = (Ok tt, cs)) /\
  (window_closed w >> construct (Some w) kwargs) cs
  = (Raise object_new_error, (window_closed w cs).2) /\
  exists l' cs',
    (window_closed w >> construct (Some w) []) cs = (Ok l', cs') /\
    l' <> l /\
    objects cs' !! l = objects cs !! l /\
    windows cs' !! w = Some l' /\
    (forall w', windows cs' !! w' = Some l -> False).
Proof.
  intros [Hdom Hinj] Hw Hk. split; [|split].
  - intros w' Hn. unfold window_closed, modify. rewrite delete_id by done.
    by destruct cs.
  - unfold window_closed. unfold bind at 1. unfold modify. simpl.
    apply construct_refused; [apply lookup_delete_eq | exact Hk].
  - unfold window_closed. unfold bind at 1. unfold modify.
    set (cs0 := mkClass (delete w (windows cs)) (objects cs) (class_settings cs)).
    assert (H0 : windows cs0 !! w = None) by apply lookup_delete_eq.
    rewrite (construct_unregistered cs0 w H0). simpl.
    assert (Hne : fresh (dom (objects cs)) <> l).
    { intros He. destruct (Hdom _ _ Hw) as [o Ho].
      rewrite <- He, fresh_object in Ho. discriminate. }
    eexists _, _. split; [reflexivity|]. split; [exact Hne|]. simpl.
    split; [by rewrite lookup_insert_ne|]. split; [apply lookup_insert_eq|].
    intros w' H. destruct (decide (w = w')) as [<-|Hw'].
    + rewrite lookup_insert_eq in H. by injection H.
    + rewrite lookup_insert_ne, lookup_delete_ne in H by done.
      apply Hw'. by apply (Hinj w w' l).
Qed.

(** X12 at the first of two registered windows. *)
Lemma X12_witness :
  (forall w', windows cs_two_windows !! w' = None ->
     window_closed w' cs_two_windows = (Ok tt, cs_two_windows)) /\
  (window_closed 7%Z >> construct (Some 7%Z) [("host", VStr "db")]) cs_two_windows
  = (Raise object_new_error, (window_closed 7%Z cs_two_windows).2) /\
  exists l' cs',
    (window_closed 7%Z >> construct (Some 7%Z) []) cs_two_windows = (Ok l', cs') /\
    l' <> 0 /\
    objects cs' !! 0 = objects cs_two_windows !! 0 /\
    windows cs' !! 7%Z = Some l' /\
    (forall w', windows cs' !! w' = Some 0 -> False).
Proof.
  apply (X12_closed_window_gets_new_object cs_two_windows 7%Z 0 [("host", VStr "db")]).
  - exact registry_ok_two_windows.
  - reflexivity.
  - discriminate.
Defined.

Lemma on_object_reload (l : nat) (cs : class_state) :
  on_object l reload cs
  = (Ok tt, mkClass (windows cs) (<[l := reloaded (object_at cs l)]> (objects cs))
                    (class_settings cs)).
Proof. by rewrite on_object_state. Qed.

Lemma reloaded_twice (o : PsqlSettings) : reloaded (reloaded o) = reloaded o.
Proof. reflexivity. Qed.

Lemma reload_list_spec (wl : list (Z * nat)) (cs : class_state) :
  exists cs',
    for_each wl (fun p => on_object p.2 reload) cs = (Ok tt, cs') /\
    windows cs' = windows cs /\
    class_settings cs' = class_settings cs /\
    forall l,
      objects cs' !! l
      = if bool_decide (l ∈ wl.*2) then Some (reloaded (object_at cs l))
        else objects cs !! l.
Proof.
  revert cs. induction wl as [|[w l0] wl IH]; intros cs.
  - exists cs. repeat split.
  - simpl. rewrite (bind_ok _ _ _ _ _ (on_object_reload l0 cs)).
    destruct (IH (mkClass (windows cs) (<[l0 := reloaded (object_at cs l0)]> (objects cs))
                          (class_settings cs))) as (cs' & Hf & Hw & Hs & Ho).
    exists cs'. split; [exact Hf|]. split; [exact Hw|]. split; [exact Hs|].
    intros l. rewrite Ho. simpl.
    destruct (decide (l = l0)) as [->|Hne].
    + rewrite (bool_decide_eq_true_2 (l0 ∈ l0 :: _)) by left.
      unfold object_at at 1. simpl. rewrite lookup_insert_eq. simpl.
      by destruct (bool_decide (l0 ∈ wl.*2)).
    + assert (Hb : forall t, bool_decide (l ∈ l0 :: t) = bool_decide (l ∈ t)).
      { intros t. apply bool_decide_ext. rewrite elem_of_cons.
        split; [intros [?|?]; done | by right]. }
      rewrite Hb. unfold object_at at 1. simpl.
      by rewrite lookup_insert_ne by done.
Qed.

(** X13. The reload of all windows never raises. It resets the working
    layer of every registered settings object to a copy of that object's
    overrides; objects that no window is registered for, such as those
    constructed without a window, are not reloaded; the registry and the
    backend stay as they are. *)
Theorem X13_reload_of_all_windows (cs : class_state) :
  exists cs',
    reload_all_windows cs = (Ok tt, cs') /\
    windows cs' = windows cs /\
    class_settings cs' = class_settings cs /\
    (forall w l, windows cs !! w = Some l ->
       objects cs' !! l = Some (reloaded (object_at cs l))) /\
    (forall l, (forall w, windows cs !! w <> Some l) ->
       objects cs' !! l = objects cs !! l).
Proof.
  destruct (reload_list_spec (map_to_list (windows cs)) cs)
    as (cs' & Hf & Hw & Hs & Ho).
  exists cs'. split; [exact Hf|]. split; [exact Hw|]. split; [exact Hs|]. split.
  - intros w l H. rewrite Ho, bool_decide_eq_true_2; [done|].
    apply list_elem_of_fmap. exists (w, l). split; [done|].
    by apply elem_of_map_to_list.
  - intros l H. rewrite Ho, bool_decide_eq_false_2; [done|].
    intros Hin. apply list_elem_of_fmap in Hin as ([w l'] & -> & Hin).
    apply elem_of_map_to_list in Hin. by apply (H w).
Qed.

Example reload_of_two_windows :
  (reload_all_windows cs_two_windows).2
  = mkClass (windows cs_two_windows)
            {[ 0 := mkPsqlSettings ∅ ∅;
               1 := mkPsqlSettings {[ "port" := VInt 5433 ]} {[ "port" := VInt 5433 ]};
               2 := mkPsqlSettings {[ "user" := VStr "alice" ]} ∅ ]}
            ∅.
Proof. vm_compute. reflexivity. Qed.

Lemma on_object_save_override (l : nat) (name : string) (v : value) (cs : class_state) :
  try_validate_name name = true ->
  exists backend,
    on_object l (set_user_specified name v >> save) cs
    = (Ok tt, mkClass (windows cs) (<[l := mkPsqlSettings ∅ ∅]> (objects cs)) backend)
    /\ backend !! ("default_" +:+ name) = Some v.
Proof.
  intros Hv. rewrite on_object_state.
  rewrite (bind_ok _ _ _ _ _ (set_user_specified_ok _ v _ Hv)).
  rewrite save_with_override by (simpl; apply insert_non_empty). simpl.
  eexists. split; [reflexivity|]. apply saved_entry.
  - apply NoDup_fst_map_to_list.
  - apply elem_of_map_to_list, lookup_insert_eq.
Qed.

Lemma on_object_getitem_default (l : nat) (name : string) (v : value)
  (cs : class_state) :
  try_validate_name name = true ->
  truthy v = true ->
  defaults (object_at cs l) !! name = None ->
  class_settings cs !! ("default_" +:+ name) = Some v ->
  (on_object l (getitem name) cs).1 = Ok v.
Proof.
  intros Hv Ht Hd Hs. rewrite on_object_state. simpl.
  by rewrite (getitem_backfill name v).
Qed.

(** X14. The backend is shared by all settings objects: a value that one
    object saves is what [get] returns through any other object that has
    no entry of its own for the name, provided the value is truthy. This
    holds whether or not the windows are reloaded between the two steps,
    as long as the other object has no override for the name either. *)
Theorem X14_saved_value_reaches_other_objects (cs : class_state) (l1 l2 : nat)
  (name : string) (v : value) :
  l1 <> l2 ->
  try_validate_name name = true ->
  truthy v = true ->
  defaults (object_at cs l2) !! name = None ->
  ((on_object l1 (set_user_specified name v >> save) >>
    on_object l2 (getitem name)) cs).1 = Ok v /\
  (userspecified (object_at cs l2) !! name = None ->
   ((on_object l1 (set_user_specified name v >> save) >>
     reload_all_windows >>
     on_object l2 (getitem name)) cs).1 = Ok v).
Proof.
  intros Hne Hv Ht Hd.
  destruct (on_object_save_override l1 name v cs Hv) as (backend & Hsave & Hb).
  rewrite !(bind_ok _ _ _ _ _ Hsave).
  set (cs1 := mkClass _ _ _).
  assert (H2 : object_at cs1 l2 = object_at cs l2).
  { unfold object_at, cs1. simpl. by rewrite lookup_insert_ne. }
  assert (Hd1 : defaults (object_at cs1 l2) !! name = None) by by rewrite H2.
  split.
  - apply on_object_getitem_default; [done | done | exact Hd1 | exact Hb].
  - intros Hu. unfold reload_all_windows. unfold bind at 1 2. unfold gets.
    destruct (reload_list_spec (map_to_list (windows cs1)) cs1)
      as (cs2 & -> & _ & Hs & Ho).
    apply on_object_getitem_default; [done | done | | by rewrite Hs].
    unfold object_at at 1. rewrite Ho.
    destruct (bool_decide _); simpl.
    + by rewrite H2.
    + exact Hd1.
Qed.

(** X14 at the two registered objects, for the name [user]. *)
Lemma X14_witness :
  ((on_object 0 (set_user_specified "user" (VStr "bob") >> save) >>
    on_object 1 (getitem "user")) cs_two_windows).1 = Ok (VStr "bob") /\
  (userspecified (object_at cs_two_windows 1) !! "user" = None ->
   ((on_object 0 (set_user_specified "user" (VStr "bob") >> save) >>
     reload_all_windows >>
     on_object 1 (getitem "user")) cs_two_windows).1 = Ok (VStr "bob")).
Proof.
  apply (X14_saved_value_reaches_other_objects cs_two_windows 0 1 "user" (VStr "bob")).
  - discriminate.
  - reflexivity.
  - reflexivity.
  - reflexivity.
Defined.

Lemma construct_no_keywords (cs : class_state) (w : Z) :
  exists l cs1,
    construct (Some w) [] cs = (Ok l, cs1) /\
    windows cs1 !! w = Some l /\
    object_at cs1 l = mkPsqlSettings ∅ ∅.
Proof.
  destruct (windows cs !! w) as [l|] eqn:Hw.
  - exists l. eexists. split; [by apply construct_registered|]. split; [exact Hw|].
    unfold object_at. simpl. by rewrite lookup_insert_eq.
  - eexists _, _. split; [by apply construct_unregistered|].
    split; [apply lookup_insert_eq|]. unfold object_at. simpl.
    by rewrite lookup_insert_eq.
Qed.

(** X15. The commands of one window share one settings object, and the
    first access of each command resets it: what one command has stored
    in the settings is gone once another command of the same window reads
    its [settings] for the first time. A command that has read its
    [settings] before gets the cached object back without any change. *)
Theorem X15_commands_share_and_reset (cs : class_state) (w : Z) (name : string)
  (v : value) :
  try_validate_name name = true ->
  exists l cs1 cs2 cs3,
    settings_property (mkCommand w None) cs = (Ok (l, mkCommand w (Some l)), cs1) /\
    on_object l (setitem name v) cs1 = (Ok tt, cs2) /\
    defaults (object_at cs2 l) !! name = Some v /\
    settings_property (mkCommand w None) cs2 = (Ok (l, mkCommand w (Some l)), cs3) /\
    object_at cs3 l = mkPsqlSettings ∅ ∅ /\
    settings_property (mkCommand w (Some l)) cs3
    = (Ok (l, mkCommand w (Some l)), cs3).
Proof.
  intros Hv. destruct (construct_no_keywords cs w) as (l & cs1 & Hc & Hw & Ho).
  pose (cs2 := mkClass (windows cs1)
                 (<[l := mkPsqlSettings (<[name := v]> (defaults (object_at cs1 l)))
                                        (userspecified (object_at cs1 l))]>
                    (objects cs1))
                 (class_settings cs1)).
  assert (Hw2 : windows cs2 !! w = Some l) by exact Hw.
  exists l, cs1, cs2. eexists.
  split. { unfold settings_property. simpl. by rewrite (bind_ok _ _ _ _ _ Hc). }
  split. { rewrite on_object_state. by rewrite (setitem_ok _ _ _ Hv). }
  split. { unfold object_at, cs2. simpl. rewrite lookup_insert_eq. simpl.
           apply lookup_insert_eq. }
  split.
  { unfold settings_property. simpl.
    rewrite (bind_ok _ _ _ _ _ (construct_registered cs2 w l [] Hw2 eq_refl)).
    reflexivity. }
  split. { unfold object_at. simpl. by rewrite lookup_insert_eq. }
  reflexivity.
Qed.

(** X15 at the first of two windows, for the name [port]. *)
Lemma X15_witness :
  exists l cs1 cs2 cs3,
    settings_property (mkCommand 7%Z None) cs_two_windows
    = (Ok (l, mkCommand 7%Z (Some l)), cs1) /\
    on_object l (setitem "port" (VInt 5433)) cs1 = (Ok tt, cs2) /\
    defaults (object_at cs2 l) !! "port" = Some (VInt 5433) /\
    settings_property (mkCommand 7%Z None) cs2
    = (Ok (l, mkCommand 7%Z (Some l)), cs3) /\
    object_at cs3 l = mkPsqlSettings ∅ ∅ /\
    settings_property (mkCommand 7%Z (Some l)) cs3
    = (Ok (l, mkCommand 7%Z (Some l)), cs3).
Proof.
  apply (X15_commands_share_and_reset cs_two_windows 7%Z "port" (VInt 5433)).
  reflexivity.
Defined.

(** ** More facts about the dispatcher *)

Section DispatcherMore.

Variable float : Type.
Variable isfile : string -> bool.
Variable expanduser : string -> string.
Variable ok_cancel_dialog : string -> string -> bool.
Variable time : nat -> float.

(** The branch that stores the password. *)
Lemma store_password (password : value) (st : state) :
  (let* c := contains "password" in
   (if c then ret tt else setitem "password" password) >> ret true) st
  = (Ok true, password_stored password st).
Proof.
  rewrite (bind_ok _ _ _ _ _ (contains_present "password" st eq_refl)).
  unfold password_stored. destruct (present st "password") eqn:Hp; [reflexivity|].
  by rewrite (bind_ok _ _ _ _ _ (setitem_ok "password" password st eq_refl)).
Qed.

Lemma password_stored_reads (password : value) (st : state) :
  settings (password_stored password st) = settings st /\
  userspecified (self (password_stored password st)) = userspecified (self st) /\
  (forall name, name <> "password" ->
     resolve (password_stored password st) name = resolve st name) /\
  resolve (password_stored password st) "password"
  = Some (default password (resolve st "password")).
Proof.
  unfold password_stored, present.
  destruct (resolve st "password") as [p|] eqn:Hr.
  - rewrite bool_decide_eq_true_2 by done. by rewrite Hr.
  - rewrite bool_decide_eq_false_2 by (by intros [? ?]).
    repeat split.
    + intros name Hn. by apply resolve_insert_ne.
    + unfold resolve. simpl. by rewrite lookup_insert_eq.
Qed.

(** Lines 252-258: the test for the output panel, then the status message
    that cannot be sent. *)
Lemma executing_status_raises {A : Type} (k : bool -> M state A) (st : state) :
  exists st',
    same_reads st st' /\
    (let* newfile := is_output_to_newfile in
     command_set_status "PostgreSQL query executing..." >> k newfile) st
    = (Raise (AttributeError "'PsqlCommand' object has no attribute 'set_status'"),
       st').
Proof.
  destruct (flag_read "output_to_newfile" st eq_refl) as (st' & Hf & Hs).
  exists st'. split; [exact Hs|].
  unfold is_output_to_newfile. by rewrite (bind_ok _ _ _ _ _ Hf).
Qed.

(** The two ways through the first lines of [__run_with_password]. *)
Lemma run_with_password_required (v : view) (password : value) (st : state) :
  truthy password = false ->
  password_required isfile expanduser st = true ->
  exists st1,
    same_reads st st1 /\
    run_with_password float isfile expanduser ok_cancel_dialog time v password st
    = (Raise (AttributeError "'PsqlCommand' object has no attribute 'set_status'"),
       st1).
Proof.
  intros Ht Hreq. unfold run_with_password. rewrite Ht.
  destruct (is_password_required_spec isfile expanduser st) as (st0 & Hr & Hs0).
  fold (password_required isfile expanduser st) in Hr. rewrite Hreq in Hr.
  rewrite (bind_ok _ _ _ _ _ Hr).
  destruct (flag_read_bind "warn_on_empty_password"
              (fun warn =>
                 if warn && negb (ok_cancel_dialog "Proceed with empty password?"
                                                   "Proceed")
                 then command_set_status "PostgreSQL query cancelled." >> ret false
                 else ret true)
              st0 eq_refl) as (st1 & Hw & Hs1).
  destruct (flag_set st0 "warn_on_empty_password"
            && negb (ok_cancel_dialog "Proceed with empty password?" "Proceed")).
  - exists st1. split; [by apply same_reads_trans with st0|].
    by rewrite (bind_raise _ _ st0 st1 _ Hw).
  - rewrite (bind_ok _ _ st0 st1 true Hw).
    destruct (executing_status_raises
                (fun newfile =>
                   let* threads := make_threads float isfile v in
                   ret (Executing (negb newfile)
                          (start_threads float time 0 threads.1) threads.2)) st1)
      as (st2 & Hs2 & He).
    exists st2. split; [|exact He].
    apply same_reads_trans with st0; [done|]. by apply same_reads_trans with st1.
Qed.

Lemma run_with_password_stores (v : view) (password : value) (st : state) :
  truthy password = true \/ password_required isfile expanduser st = false ->
  exists st0 st1,
    same_reads st st0 /\
    same_reads (password_stored password st0) st1 /\
    run_with_password float isfile expanduser ok_cancel_dialog time v password st
    = (Raise (AttributeError "'PsqlCommand' object has no attribute 'set_status'"),
       st1).
Proof.
  intros H. unfold run_with_password.
  assert (Hgo : forall st0,
            exists st1,
              same_reads (password_stored password st0) st1 /\
              (let* proceed :=
                 (let* c := contains "password" in
                  (if c then ret tt else setitem "password" password) >> ret true) in
               if negb proceed then ret Cancelled else
               let* newfile := is_output_to_newfile in
               command_set_status "PostgreSQL query executing..." >>
               let* threads := make_threads float isfile v in
               ret (Executing (negb newfile)
                      (start_threads float time 0 threads.1) threads.2)) st0
              = (Raise (AttributeError
                          "'PsqlCommand' object has no attribute 'set_status'"), st1)).
  { intros st0. rewrite (bind_ok _ _ _ _ _ (store_password password st0)).
    apply executing_status_raises. }
  destruct (truthy password) eqn:Ht.
  - destruct (Hgo st) as (st1 & Hs1 & He).
    exists st, st1. split; [apply same_reads_refl|]. split; [exact Hs1|].
    by rewrite (bind_ok _ _ st st false eq_refl).
  - destruct H as [H|Hreq]; [discriminate|].
    destruct (is_password_required_spec isfile expanduser st) as (st0 & Hr & Hs0).
    fold (password_required isfile expanduser st) in Hr. rewrite Hreq in Hr.
    destruct (Hgo st0) as (st1 & Hs1 & He).
    exists st0, st1. split; [exact Hs0|]. split; [exact Hs1|].
    by rewrite (bind_ok _ _ _ _ _ Hr).
Qed.

(** X16. [__run_with_password] never gets to its threads. On every input
    it ends in an [AttributeError]: at the status message for a
    cancelled query when the user declines to go on with an empty
    password, and at the status message of line 258, the line before the
    threads are made, in every other case. It never returns. *)
Theorem X16_run_with_password_always_raises (v : view) (password : value)
  (st : state) :
  exists msg st',
    run_with_password float isfile expanduser ok_cancel_dialog time v password st
    = (Raise (AttributeError msg), st').
Proof.
  destruct (truthy password) eqn:Ht;
    [|destruct (password_required isfile expanduser st) eqn:Hreq].
  - destruct (run_with_password_stores v password st (or_introl Ht))
      as (st0 & st1 & _ & _ & ->). by eexists _, _.
  - destruct (run_with_password_required v password st Ht Hreq)
      as (st1 & _ & ->). by eexists _, _.
  - destruct (run_with_password_stores v password st (or_intror Hreq))
      as (st0 & st1 & _ & _ & ->). by eexists _, _.
Qed.

Lemma password_after_run (v : view) (password : value) (st : state) :
  truthy password = true \/ password_required isfile expanduser st = false ->
  let st' :=
    (run_with_password float isfile expanduser ok_cancel_dialog time v password st).2 in
  resolve st' "password" = Some (default password (resolve st "password")) /\
  (forall name, name <> "password" -> resolve st' name = resolve st name) /\
  userspecified (self st') = userspecified (self st) /\
  settings st' = settings st.
Proof.
  intros H.
  destruct (run_with_password_stores v password st H)
    as (st0 & st1 & Hs0 & (Hb & Hu & Hr) & ->).
  simpl.
  destruct (password_stored_reads password st0) as (Hb1 & Hu1 & Hr1 & Hp1).
  destruct Hs0 as (Hb0 & Hu0 & Hr0).
  repeat split.
  - by rewrite Hr, Hp1, Hr0.
  - intros name Hn. by rewrite Hr, Hr1, Hr0.
  - by rewrite Hu, Hu1, Hu0.
  - by rewrite Hb, Hb1, Hb0.
Qed.

(** X17. When [__run_with_password] gets a password, or needs none, the
    password ends up in the working layer unless the settings had one
    already: afterwards [password] reads as the old value when there was
    one and as the given one otherwise, whatever comes of the threads.
    No other name reads differently, and neither the overrides nor the
    persisted settings change. *)
Theorem X17_password_is_kept_in_working_layer (v : view) (password : value)
  (st : state) :
  truthy password = true \/ password_required isfile expanduser st = false ->
  let st' :=
    (run_with_password float isfile expanduser ok_cancel_dialog time v password st).2 in
  resolve st' "password" = Some (default password (resolve st "password")) /\
  (forall name, name <> "password" -> resolve st' name = resolve st name) /\
  userspecified (self st') = userspecified (self st) /\
  settings st' = settings st.
Proof. apply password_after_run. Qed.

End DispatcherMore.

(** X17 at a password typed into the panel, with no password in the
    settings. *)
Lemma X17_witness :
  resolve
    (run_with_password Z (fun _ => false) id (fun _ _ => true) Z.of_nat
       (mkView "select 1;" []) (VStr "secret") st_prompt).2 "password"
  = Some (VStr "secret").
Proof.
  exact (proj1 (X17_password_is_kept_in_working_layer Z (fun _ => false) id
                  (fun _ _ => true) Z.of_nat (mkView "select 1;" []) (VStr "secret")
                  st_prompt (or_introl eq_refl))).
Defined.

Example declined_warning_raises :
  run_with_password Z (fun _ => false) id (fun _ _ => false) Z.of_nat
    (mkView "select 1;" []) VNone st_prompt_and_warn
  = (Raise (AttributeError "'PsqlCommand' object has no attribute 'set_status'"),
     st_prompt_and_warn).
Proof. vm_compute. reflexivity. Qed.

(** ** The ticks of the supervisor *)

Section ChainFacts.

Variable float : Type.
Variable fsub fmul : float -> float -> float.
Variable of_int : Z -> float.
Variable str : float -> string.

(** The loop of a tick: it passes over the entries while their threads
    are alive and dies at the first finished one, before any message. *)
Lemma poll_cases (is_alive : nat -> bool) (time : nat -> float) (thread_total : Z)
  (l : list (thread_info float)) :
  forall (i : nat) (acc : list (thread_info float)) (queued : list string),
    (poll float fsub fmul of_int str is_alive time thread_total i l acc queued
     = (Ok (acc ++ l), queued) /\
     forall j, j < length l -> is_alive (i + j) = true) \/
    (exists e,
       poll float fsub fmul of_int str is_alive time thread_total i l acc queued
       = (Raise e, queued) /\
       tick_error e /\
       exists j, j < length l /\ is_alive (i + j) = false).
Proof.
  induction l as [|ti rest IH]; intros i acc queued.
  - left. simpl. rewrite app_nil_r. split; [reflexivity|]. intros j Hj. lia.
  - simpl. destruct (is_alive i) eqn:Ha.
    + destruct (IH (S i) (acc ++ [ti]) queued) as [[Hp Hall]|(e & Hp & He & j & Hj & Hd)].
      * left. rewrite Hp, <- app_assoc. split; [reflexivity|].
        intros [|j] Hj; [by rewrite Nat.add_0_r|].
        rewrite <- Nat.add_succ_comm. apply Hall. lia.
      * right. exists e. split; [exact Hp|]. split; [exact He|].
        exists (S j). split; [lia|]. by rewrite <- Nat.add_succ_comm.
    + right.
      assert (Hj : exists j, j < S (length rest) /\ is_alive (i + j) = false).
      { exists 0. split; [lia|]. by rewrite Nat.add_0_r. }
      unfold bind at 1.
      destruct (start_time ti) as [started|]; simpl;
        [|exists (KeyError "start_time"); repeat split;
          [right; right; by eexists | exact Hj]].
      unfold bind at 1, query_id.
      destruct (info_file ti) as [f|]; simpl.
      * eexists. split; [reflexivity|]. split; [by left | exact Hj].
      * destruct (thread_num ti) as [n|]; simpl;
          [|exists (KeyError "thread_num"); repeat split;
            [right; right; by eexists | exact Hj]].
        destruct (negb (n =? 1)%Z && negb (thread_total =? 1)%Z); simpl.
        -- eexists. split; [reflexivity|]. split; [right; by left | exact Hj].
        -- eexists. split; [reflexivity|]. split; [by left | exact Hj].
Qed.

Lemma supervisor_run_cases (is_alive : nat -> bool) (time : nat -> float)
  (thread_infos : list (thread_info float)) (thread_total : Z) (queued : list string) :
  (supervisor_run float fsub fmul of_int str is_alive time thread_infos thread_total
     queued
   = (Ok (match thread_infos with
          | [] => Done
          | _ :: _ => Polling thread_infos thread_total
          end), queued) /\
   forall j, j < length thread_infos -> is_alive j = true) \/
  (exists e,
     supervisor_run float fsub fmul of_int str is_alive time thread_infos thread_total
       queued
     = (Raise e, queued) /\
     tick_error e /\
     exists j, j < length thread_infos /\ is_alive j = false).
Proof.
  unfold supervisor_run.
  destruct (poll_cases is_alive time thread_total thread_infos 0 [] queued)
    as [[Hp Hall]|(e & Hp & He & Hj)].
  - left. rewrite (bind_ok _ _ _ _ _ Hp). split; [|exact Hall].
    by destruct thread_infos.
  - right. exists e. by rewrite (bind_raise _ _ _ _ _ Hp).
Qed.

(** X20. A tick never sends a completion message. While every thread is
    alive it only starts the next tick on the same entries, or ends when
    there are none. As soon as a thread has finished the tick dies: of
    the status message that cannot be sent, of the ordinal that is added
    to a string, or of a key that the entry lacks. The queue of status
    messages is as before in every case. *)
Theorem X20_tick_sends_no_message (is_alive : nat -> bool) (time : nat -> float)
  (thread_infos : list (thread_info float)) (thread_total : Z) (queued : list string) :
  exists r,
    supervisor_run float fsub fmul of_int str is_alive time thread_infos thread_total
      queued
    = (r, queued) /\
    ((forall j, j < length thread_infos -> is_alive j = true) ->
     r = Ok (match thread_infos with
             | [] => Done
             | _ :: _ => Polling thread_infos thread_total
             end)) /\
    (forall j, j < length thread_infos -> is_alive j = false ->
     exists e, r = Raise e /\ tick_error e).
Proof.
  destruct (supervisor_run_cases is_alive time thread_infos thread_total queued)
    as [[-> Hall]|(e & -> & He & j & Hj & Hd)].
  - eexists. split; [reflexivity|]. split; [done|].
    intros j Hj Hd. rewrite Hall in Hd by done. discriminate.
  - eexists. split; [reflexivity|]. split.
    + intros Hall. rewrite Hall in Hd by done. discriminate.
    + intros _ _ _. by exists e.
Qed.

(** X21. Started on at least one entry, the chain of supervisors never
    comes to its end and never sends a message: after any number of
    ticks it is still polling all the entries it was started on, or it
    has died at the first tick that found a thread finished. *)
Theorem X21_chain_never_completes (ticks : list (tick float))
  (thread_infos : list (thread_info float)) (thread_total : Z) (queued : list string) :
  thread_infos <> [] ->
  exists r,
    execute fsub fmul of_int str ticks thread_infos thread_total queued = (r, queued) /\
    (r = Ok (Polling thread_infos thread_total) \/ exists e, r = Raise e /\ tick_error e).
Proof.
  intros Hne. induction ticks as [|t later IH].
  - eexists. split; [reflexivity | by left].
  - simpl.
    destruct (supervisor_run_cases (tick_is_alive t) (tick_time t) thread_infos
                thread_total queued) as [[Hr _]|(e & Hr & He & _)].
    + rewrite (bind_ok _ _ _ _ _ Hr). destruct thread_infos; [done | exact IH].
    + rewrite (bind_raise _ _ _ _ _ Hr). eexists. split; [reflexivity|].
      right. by exists e.
Qed.

End ChainFacts.

(** X21 at two files of which the second finishes first. *)
Lemma X21_witness :
  exists r,
    execute Z.sub Z.mul id whole_str second_then_first two_files_started 2 []
    = (r, []) /\
    (r = Ok (Polling two_files_started 2) \/ exists e, r = Raise e /\ tick_error e).
Proof.
  apply (X21_chain_never_completes Z Z.sub Z.mul id whole_str second_then_first
           two_files_started 2 []).
  discriminate.
Defined.

Example chain_dies_at_finished_file :
  execute Z.sub Z.mul id whole_str second_then_first two_files_started 2 []
  = (Raise (AttributeError
              "'__PostgresQueryHandleExecution' object has no attribute 'set_status'"),
     []).
Proof. vm_compute. reflexivity. Qed.

Example chain_keeps_polling :
  execute Z.sub Z.mul id whole_str nothing_finishes two_files_started 2 []
  = (Ok (Polling two_files_started 2), []).
Proof. vm_compute. reflexivity. Qed.

(** ** More facts about the worker *)

Section WorkerMore.

Variable process : Type.
Variable environ : gmap string value.
Variable open_ : string -> result string.
Variable popen : list value -> stdin -> gmap string value -> result process.
Variable communicate : process -> option (list Byte.byte) -> result (list Byte.byte).
Variable poll_process : process -> Z.
Variable encode : string -> string -> result (list Byte.byte).
Variable decode : list Byte.byte -> string -> result string.
Variable format_exc : exn -> string.
Variable encoding : string.

Lemma get_parameter_spec (name : string) (dflt : value) (st : state) :
  try_validate_name name = true ->
  exists st',
    get_parameter name dflt st
    = (Ok (default (if truthy dflt then dflt else VBool false) (resolve st name)), st')
    /\ same_reads (parameter_stored name dflt st) st'.
Proof.
  intros Hv. unfold get_parameter, parameter_stored.
  rewrite (bind_ok _ _ _ _ _ (contains_present _ _ Hv)).
  unfold present at 1 2. destruct (resolve st name) as [v|] eqn:Hr.
  - rewrite bool_decide_eq_true_2 by done. simpl. unfold bind at 1, ret at 1.
    destruct (getitem_resolve_some _ _ _ Hv Hr) as (st' & Hg & Hs).
    exists st'. split; [|exact Hs].
    destruct (truthy dflt); [exact Hg|].
    rewrite (bind_ok _ _ _ _ _ (contains_present _ _ Hv)).
    unfold present. rewrite Hr. by rewrite bool_decide_eq_true_2.
  - rewrite bool_decide_eq_false_2 by (by intros [? ?]). simpl.
    destruct (truthy dflt) eqn:Ht.
    + rewrite (bind_ok _ _ _ _ _ (setitem_ok _ _ _ Hv)).
      exists (with_defaults (insert name dflt) st). split; [|apply same_reads_refl].
      apply getitem_working; [done|]. apply lookup_insert_eq.
    + unfold bind at 1, ret at 1.
      rewrite (bind_ok _ _ _ _ _ (contains_present _ _ Hv)).
      unfold present. rewrite Hr.
      rewrite bool_decide_eq_false_2 by (by intros [? ?]).
      exists st. split; [reflexivity | apply same_reads_refl].
Qed.

Lemma get_parameter_unknown (name : string) (dflt : value) (st : state) :
  try_validate_name name = false ->
  get_parameter name dflt st = (Raise (not_recognized name), st).
Proof.
  intros Hv. unfold get_parameter, contains, bind.
  by rewrite (validate_name_fails _ _ Hv).
Qed.

(** X24. [__get_parameter] on a name of the vocabulary never raises. A
    value the settings have for the name wins over the default, even a
    falsy one of the working layer; otherwise a truthy default is
    returned and written into the working layer, and without a truthy
    default the answer is [False] and nothing is written. A name outside
    the vocabulary is refused before anything is written. *)
Theorem X24_get_parameter_answers (name : string) (dflt : value) (st : state) :
  (try_validate_name name = true ->
   exists st',
     get_parameter name dflt st
     = (Ok (default (if truthy dflt then dflt else VBool false) (resolve st name)), st')
     /\ same_reads (parameter_stored name dflt st) st') /\
  (try_validate_name name = false ->
   get_parameter name dflt st = (Raise (not_recognized name), st)).
Proof.
  split; [apply get_parameter_spec | apply get_parameter_unknown].
Qed.

(** X25. A run of the worker leaves one trace in the settings at most:
    when they name no client, the path [/usr/bin/psql] is written into
    the working layer by line 360, before the body fails at the accessor.
    No other name reads differently afterwards, the overrides and the
    persisted settings are as before, and what is delivered depends
    neither on the query or the file nor on the world outside. *)
Theorem X25_worker_command_and_store (t : PostgresQueryExecute) (st : state) :
  exists st',
    worker_run process environ open_ popen communicate poll_process encode decode
      format_exc encoding t st
    = (Ok (mkDelivery 1 (format_exc accessor_error)), st') /\
    same_reads (parameter_stored "psql_path" usr_bin_psql st) st'.
Proof.
  destruct (run_body_raises process environ open_ popen communicate poll_process
              encode decode encoding t st) as (psql_path & st' & Hp & Hr).
  destruct (get_parameter_spec "psql_path" usr_bin_psql st eq_refl) as (st1 & Hp' & Hs).
  unfold usr_bin_psql in Hp' at 1. rewrite Hp in Hp'. injection Hp' as _ <-.
  exists st'. split; [|exact Hs].
  unfold worker_run, try_except. by rewrite Hr.
Qed.

End WorkerMore.
